(** * Student attendance tracker: the client application (frontend/src/App.js)

    A shallow embedding of the authentication hook [useAuth], the route guard
    [ProtectedRoute] and the aggregation code of [Dashboard], together with the
    properties of the specification that were checked against them.

    Conventions of the embedding.
    - A JavaScript number that only ever counts ([present], [total]) is a
      [nat]. A number that is a ratio (a percentage) is a rational [Q]:
      [Dashboard.getTrendData] carries the exact value of each ratio, which
      is enough for what does not depend on rounding (labels, counters,
      order); [Dashboard64.getTrendData64] carries the value the engine
      computes, each operation rounded to binary64 ([Binary64.round]).
    - A JavaScript string is a [string]; [===] on strings is [String.eqb].
    - A plain object used as a dictionary is an association list in insertion
      order, which is the order [Object.keys] enumerates non-index keys in.
    - The [Date] facilities of the host are a record of functions (see
      [Platform]); general theorems quantify over it, concrete evaluations use
      the reference browser [browser] defined below.
    - [async] functions are programs of a small free monad ([Prog]) whose
      nodes are the synchronous effects (state setters, [localStorage]) and the
      suspension points ([await] of a network request). *)

From Stdlib Require Import ZArith QArith List String Ascii Bool Lia.
From Stdlib Require Import Sorting.Sorted Sorting.Permutation DecimalString.
From Stdlib Require Import Qround Qpower Qabs Lqa.
From Stdlib Require PrimFloat FloatOps SpecFloat Uint63.
Import ListNotations.

Local Open Scope string_scope.
Local Open Scope Z_scope.

(* ===================================================================== *)
(** * The host's [Date] *)
(* ===================================================================== *)

(** The time value of a [Date] object: milliseconds since the epoch, or
    [None] for NaN (an "Invalid Date"). *)
Definition TimeValue := option Z.

(** What the code uses of the host: [new Date(s)] on a string, the default
    [d.toLocaleDateString()] (runtime locale and time zone), and the explicit
    [d.toLocaleDateString('en-US', {year:'numeric', month:'short',
    day:'numeric'})] of the details table. *)
Record Platform : Type := mkPlatform {
  Date_new : string -> TimeValue;
  toLocaleDateString : TimeValue -> string;
  toLocaleDateString_short : TimeValue -> string
}.

(** [new Date(a) - new Date(b)]: the difference of two time values, NaN as
    soon as one of them is NaN. *)
Definition Date_sub (a b : TimeValue) : option Z :=
  match a, b with
  | Some x, Some y => Some (x - y)
  | _, _ => None
  end.

Module Calendar.

Definition msPerDay : Z := 86400000.

(** Day number (days since 1970-01-01) of a proleptic Gregorian date; the
    day of the month may overflow into the next month, as in MakeDay. *)
Definition days_from_civil (y m d : Z) : Z :=
  let y' := if m <=? 2 then y - 1 else y in
  let era := y' / 400 in
  let yoe := y' - era * 400 in
  let mp := (m + 9) mod 12 in
  let doy := (153 * mp + 2) / 5 + d - 1 in
  let doe := yoe * 365 + yoe / 4 - yoe / 100 + doy in
  era * 146097 + doe - 719468.

Definition civil_from_days (z : Z) : Z * Z * Z :=
  let z' := z + 719468 in
  let era := z' / 146097 in
  let doe := z' - era * 146097 in
  let yoe := (doe - doe / 1460 + doe / 36524 - doe / 146096) / 365 in
  let doy := doe - (365 * yoe + yoe / 4 - yoe / 100) in
  let mp := (5 * doy + 2) / 153 in
  let d := doy - (153 * mp + 2) / 5 + 1 in
  let m := if mp <? 10 then mp + 3 else mp - 9 in
  let y := yoe + era * 400 in
  ((if m <=? 2 then y + 1 else y), m, d).

End Calendar.

Module Text.

(** The fields of [s] between occurrences of [sep]. *)
Fixpoint split (sep : ascii) (s : string) : list string :=
  match s with
  | EmptyString => [EmptyString]
  | String c s' =>
      if Ascii.eqb c sep then EmptyString :: split sep s'
      else match split sep s' with
           | [] => [String c EmptyString]
           | f :: fs => String c f :: fs
           end
  end.

Definition digit (c : ascii) : option Z :=
  let n := Z.of_nat (nat_of_ascii c) in
  if (48 <=? n) && (n <=? 57) then Some (n - 48) else None.

Fixpoint number_acc (s : string) (acc : Z) : option Z :=
  match s with
  | EmptyString => Some acc
  | String c s' =>
      match digit c with
      | Some d => number_acc s' (10 * acc + d)
      | None => None
      end
  end.

(** A non-empty run of decimal digits. *)
Definition number (s : string) : option Z :=
  match s with
  | EmptyString => None
  | _ => number_acc s 0
  end.

(** Exactly [n] decimal digits. *)
Definition digits (n : nat) (s : string) : option Z :=
  if Nat.eqb (String.length s) n then number s else None.

Definition show (z : Z) : string :=
  NilZero.string_of_uint (N.to_uint (Z.to_N z)).

Definition show2 (z : Z) : string :=
  if z <? 10 then "0" ++ show z else show z.

End Text.

(** The runtime locales of the reference browser, by the layout of their
    default short date: [en_US] prints month/day/year ("1/2/2024" for the
    2nd of January), [en_GB] day/month/year with two digits ("02/01/2024"),
    [en_IN] day/month/year ("2/1/2024"). *)
Inductive Locale : Type := en_US | en_GB | en_IN.

Module Browser.
Import Calendar Text.

Definition in_range (lo hi x : Z) : bool := (lo <=? x) && (x <=? hi).

(** Time of day "HH:MM" or "HH:MM:SS" in milliseconds. *)
Definition parse_time (s : string) : option Z :=
  match split ":" s with
  | [hh; mm] =>
      match digits 2 hh, digits 2 mm with
      | Some h, Some mi =>
          if in_range 0 23 h && in_range 0 59 mi
          then Some ((h * 60 + mi) * 60000) else None
      | _, _ => None
      end
  | [hh; mm; ss] =>
      match digits 2 hh, digits 2 mm, digits 2 ss with
      | Some h, Some mi, Some sec =>
          if in_range 0 23 h && in_range 0 59 mi && in_range 0 59 sec
          then Some (((h * 60 + mi) * 60 + sec) * 1000) else None
      | _, _, _ => None
      end
  | _ => None
  end.

(** "YYYY-MM-DD" as a day number. *)
Definition parse_iso_day (s : string) : option Z :=
  match split "-" s with
  | [yy; mm; dd] =>
      match digits 4 yy, digits 2 mm, digits 2 dd with
      | Some y, Some m, Some d =>
          if in_range 1 12 m && in_range 1 31 d
          then Some (days_from_civil y m d) else None
      | _, _, _ => None
      end
  | _ => None
  end.

Definition strip_Z (s : string) : string * bool :=
  let n := String.length s in
  if String.eqb (substring (n - 1) 1 s) "Z"
  then (substring 0 (n - 1) s, true) else (s, false).

(** The ISO forms: a date-only string is UTC midnight; a date-time string
    is local time unless it ends in "Z". [tz] is the offset of local time
    from UTC in minutes. *)
Definition parse_iso (tz : Z) (s : string) : TimeValue :=
  match split "T" s with
  | [day] => option_map (fun n => n * msPerDay) (parse_iso_day day)
  | [day; time] =>
      let '(time', utc) := strip_Z time in
      match parse_iso_day day, parse_time time' with
      | Some n, Some ms =>
          Some (n * msPerDay + ms - (if utc then 0 else tz * 60000))
      | _, _ => None
      end
  | _ => None
  end.

(** The legacy form "a/b/c": always month [a], day [b], year [c], whatever
    the runtime locale is; local midnight. *)
Definition parse_legacy (tz : Z) (s : string) : TimeValue :=
  match split "/" s with
  | [a; b; c] =>
      match number a, number b, number c with
      | Some m, Some d, Some y =>
          if in_range 1 12 m && in_range 1 31 d
          then Some (days_from_civil y m d * msPerDay - tz * 60000)
          else None
      | _, _, _ => None
      end
  | _ => None
  end.

Definition parse (tz : Z) (s : string) : TimeValue :=
  match parse_iso tz s with
  | Some t => Some t
  | None => parse_legacy tz s
  end.

(** The local calendar day of a time value. *)
Definition localDay (tz : Z) (t : Z) : Z := (t + tz * 60000) / msPerDay.

Definition format_day (loc : Locale) (n : Z) : string :=
  let '(y, m, d) := civil_from_days n in
  match loc with
  | en_US => show m ++ "/" ++ show d ++ "/" ++ show y
  | en_GB => show2 d ++ "/" ++ show2 m ++ "/" ++ show y
  | en_IN => show d ++ "/" ++ show m ++ "/" ++ show y
  end.

Definition format (loc : Locale) (tz : Z) (t : TimeValue) : string :=
  match t with
  | None => "Invalid Date"
  | Some t => format_day loc (localDay tz t)
  end.

Definition month_short (m : Z) : string :=
  nth (Z.to_nat (m - 1))
    ["Jan"; "Feb"; "Mar"; "Apr"; "May"; "Jun";
     "Jul"; "Aug"; "Sep"; "Oct"; "Nov"; "Dec"] "".

Definition format_short (tz : Z) (t : TimeValue) : string :=
  match t with
  | None => "Invalid Date"
  | Some t =>
      let '(y, m, d) := civil_from_days (localDay tz t) in
      month_short m ++ " " ++ show d ++ ", " ++ show y
  end.

(** The calendar day a label printed in locale [loc] denotes to its reader
    (the inverse of [format_day loc]). *)
Definition read_day (loc : Locale) (s : string) : option Z :=
  match split "/" s with
  | [a; b; c] =>
      match number a, number b, number c with
      | Some x, Some y, Some yr =>
          match loc with
          | en_US => Some (days_from_civil yr x y)
          | en_GB | en_IN => Some (days_from_civil yr y x)
          end
      | _, _, _ => None
      end
  | _ => None
  end.

End Browser.

(** The reference browser: runtime locale [loc], time zone [tz] minutes east
    of UTC (no daylight saving). It implements the ISO date and date-time
    forms and the legacy slash form of date strings; any other string is an
    Invalid Date here. *)
Definition browser (loc : Locale) (tz : Z) : Platform :=
  {| Date_new := Browser.parse tz;
     toLocaleDateString := Browser.format loc tz;
     toLocaleDateString_short := Browser.format_short tz |}.


(* ===================================================================== *)
(** * Data model *)
(* ===================================================================== *)

Module User.
Record t : Type := mk {
  name : string;
  email : string;
  enrollment_number : string;
  branch : string;
  year : Z
}.
End User.

Module Subject.
Record t : Type := mk {
  id : string;
  name : string;
  code : string
}.
End Subject.

Module AttendanceRecord.
Record t : Type := mk {
  id : string;
  subject_id : string;
  date : string;
  status : string
}.
End AttendanceRecord.

Module AttendanceSummary.
Record t : Type := mk {
  subject_id : string;
  subject_name : string;
  subject_code : string;
  total_classes : nat;
  classes_attended : nat;
  attendance_percentage : Q
}.
End AttendanceSummary.

(* ===================================================================== *)
(** * Plain objects used as dictionaries *)
(* ===================================================================== *)

Module JsObject.
Section Dict.
Context {V : Type}.

(** Own string-keyed properties in insertion order. The keys used by the
    code are date labels: none is an array index (those are enumerated
    first) and none is a name inherited from [Object.prototype]. *)
Definition t := list (string * V).

Definition empty : t := [].

(** [o[k]]; [None] is [undefined]. *)
Fixpoint get (k : string) (o : t) : option V :=
  match o with
  | [] => None
  | (k', v) :: o' => if String.eqb k k' then Some v else get k o'
  end.

(** [o[k] = v]: an existing property keeps its position, a new one is
    added last. *)
Fixpoint set (k : string) (v : V) (o : t) : t :=
  match o with
  | [] => [(k, v)]
  | (k', v') :: o' =>
      if String.eqb k k' then (k', v) :: o' else (k', v') :: set k v o'
  end.

(** In-place update of the object stored at [o[k]]. *)
Fixpoint modify (k : string) (f : V -> V) (o : t) : t :=
  match o with
  | [] => []
  | (k', v) :: o' =>
      if String.eqb k k' then (k', f v) :: o' else (k', v) :: modify k f o'
  end.

(** [Object.keys(o)]. *)
Definition keys (o : t) : list string := map fst o.
End Dict.
Arguments t : clear implicits.
End JsObject.

(* ===================================================================== *)
(** * Array.prototype.sort *)
(* ===================================================================== *)

Module JsArray.
Section Sort.
Context {A : Type}.
(** The comparator's number; [None] is NaN. *)
Variable comparefn : A -> A -> option Z.

(** SortCompare: a NaN from the comparator counts as +0. *)
Definition SortCompare (x y : A) : Z :=
  match comparefn x y with
  | Some v => v
  | None => 0
  end.

(** [x] goes before the first element it does not compare greater than,
    so equal elements keep their relative order. *)
Fixpoint insert (x : A) (l : list A) : list A :=
  match l with
  | [] => [x]
  | y :: l' => if SortCompare x y <=? 0 then x :: l else y :: insert x l'
  end.

(** A stable sort (insertion sort). For a consistent comparator every
    conforming implementation returns this list. *)
Fixpoint sort (l : list A) : list A :=
  match l with
  | [] => []
  | x :: l' => insert x (sort l')
  end.
End Sort.

(** Ascending order of a numeric key that is defined on both elements. *)
Definition keyLe {A : Type} (key : A -> option Z) (a b : A) : Prop :=
  match key a, key b with
  | Some x, Some y => x <= y
  | _, _ => False
  end.

Definition keyLt {A : Type} (key : A -> option Z) (a b : A) : Prop :=
  match key a, key b with
  | Some x, Some y => x < y
  | _, _ => False
  end.
End JsArray.

(* ===================================================================== *)
(** * Dashboard: chart series and table rows *)
(* ===================================================================== *)

Module Chart.
(** An element option that is a colour: one colour for all elements, or an
    array indexed by element. *)
Inductive Colors : Type :=
| Single (colour : string)
| Indexed (colours : list string).

(** A Chart.js dataset with the options the dashboard sets; an option that a
    dataset does not set is [None]. *)
Record Dataset : Type := mkDataset {
  label : string;
  data : list Q;
  fill : option bool;
  backgroundColor : Colors;
  borderColor : Colors;
  borderWidth : option Z;
  tension : option Q
}.

Record Data : Type := mkData {
  labels : list string;
  datasets : list Dataset
}.

(** Chart.js resolves an array-valued element option by the index of the
    element, [value[index % value.length]]; [None] is [undefined]. *)
Definition resolve (value : Colors) (index : nat) : option string :=
  match value with
  | Single colour => Some colour
  | Indexed [] => None
  | Indexed colours => nth_error colours (Nat.modulo index (List.length colours))
  end.
End Chart.

Module Dashboard.
Import Chart.

Definition backgroundPalette : list string :=
  ["rgba(255, 99, 132, 0.6)";
   "rgba(54, 162, 235, 0.6)";
   "rgba(255, 206, 86, 0.6)";
   "rgba(75, 192, 192, 0.6)";
   "rgba(153, 102, 255, 0.6)"].

Definition borderPalette : list string :=
  ["rgba(255, 99, 132, 1)";
   "rgba(54, 162, 235, 1)";
   "rgba(255, 206, 86, 1)";
   "rgba(75, 192, 192, 1)";
   "rgba(153, 102, 255, 1)"].

(** [overallChartData] (App.js 468-491). *)
Definition overallChartData (attendanceSummary : list AttendanceSummary.t) : Data :=
  {| labels := map AttendanceSummary.subject_name attendanceSummary;
     datasets :=
       [ {| label := "Attendance Percentage";
            data := map AttendanceSummary.attendance_percentage attendanceSummary;
            fill := None;
            backgroundColor := Indexed backgroundPalette;
            borderColor := Indexed borderPalette;
            borderWidth := Some 1;
            tension := None |} ] |}.

(** The counters kept per date. *)
Record Bucket : Type := mkBucket { present : nat; total : nat }.

Section Host.
Variable P : Platform.

(** The key a record is grouped under:
    [new Date(record.date).toLocaleDateString()]. *)
Definition dateKey (record : AttendanceRecord.t) : string :=
  toLocaleDateString P (Date_new P (AttendanceRecord.date record)).

(** The body of [attendanceRecords.forEach] (App.js 497-506). *)
Definition groupRecord (recordsByDate : JsObject.t Bucket)
    (record : AttendanceRecord.t) : JsObject.t Bucket :=
  let date := dateKey record in
  let recordsByDate :=
    match JsObject.get date recordsByDate with
    | None => JsObject.set date {| present := 0; total := 0 |} recordsByDate
    | Some _ => recordsByDate
    end in
  let recordsByDate :=
    JsObject.modify date
      (fun b => {| present := present b; total := total b + 1 |})
      recordsByDate in
  if String.eqb (AttendanceRecord.status record) "present"
  then JsObject.modify date
         (fun b => {| present := present b + 1; total := total b |})
         recordsByDate
  else recordsByDate.

Definition groupByDate (attendanceRecords : list AttendanceRecord.t)
  : JsObject.t Bucket :=
  fold_left groupRecord attendanceRecords JsObject.empty.

(** The number of records of a date, and the number of those whose status
    is 'present'. *)
Definition totalCount (date : string) (records : list AttendanceRecord.t) : nat :=
  List.length (filter (fun r => String.eqb date (dateKey r)) records).

Definition presentCount (date : string) (records : list AttendanceRecord.t) : nat :=
  List.length
    (filter (fun r => String.eqb date (dateKey r)
                      && String.eqb (AttendanceRecord.status r) "present")
            records).

(** The comparator [(a, b) => new Date(a) - new Date(b)]. *)
Definition byDate (a b : string) : option Z :=
  Date_sub (Date_new P a) (Date_new P b).

(** [total > 0 ? (present / total) * 100 : 0], its exact value (the value
    computed in binary64 is [Dashboard64.percentage64]). *)
Definition percentage (b : Bucket) : Q :=
  if (0 <? total b)%nat
  then (inject_Z (Z.of_nat (present b)) / inject_Z (Z.of_nat (total b))) * 100
  else 0.

(** [dates.map(date => ...)]: destructuring a missing bucket would throw
    a TypeError, which is [None] here. *)
Fixpoint percentages (recordsByDate : JsObject.t Bucket) (dates : list string)
  : option (list Q) :=
  match dates with
  | [] => Some []
  | date :: dates' =>
      match JsObject.get date recordsByDate, percentages recordsByDate dates' with
      | Some b, Some ps => Some (percentage b :: ps)
      | _, _ => None
      end
  end.

Definition sortedDates (recordsByDate : JsObject.t Bucket) : list string :=
  JsArray.sort byDate (JsObject.keys recordsByDate).

(** [getTrendData] (App.js 494-528); [None] if it threw. *)
Definition getTrendData (attendanceRecords : list AttendanceRecord.t)
  : option Data :=
  let recordsByDate := groupByDate attendanceRecords in
  let dates := sortedDates recordsByDate in
  match percentages recordsByDate dates with
  | Some ps =>
      Some {| labels := dates;
              datasets :=
                [ {| label := "Daily Attendance %";
                     data := ps;
                     fill := Some false;
                     backgroundColor := Single "rgba(75, 192, 192, 0.6)";
                     borderColor := Single "rgba(75, 192, 192, 1)";
                     borderWidth := None;
                     tension := Some (1 # 10)%Q |} ] |}
  | None => None
  end.

(** A row of the details table (App.js 838-861). *)
Record DetailRow : Type := mkDetailRow {
  row_key : string;
  row_date : string;
  row_subject : string;
  row_status : string
}.

(** [subjects.find(s => s.id === record.subject_id) || { name: 'Unknown' }],
    then [.name]. *)
Definition subjectName (subjects : list Subject.t) (record : AttendanceRecord.t)
  : string :=
  match find (fun s => String.eqb (Subject.id s) (AttendanceRecord.subject_id record))
             subjects with
  | Some s => Subject.name s
  | None => "Unknown"
  end.

Definition detailRow (subjects : list Subject.t) (record : AttendanceRecord.t)
  : DetailRow :=
  {| row_key := AttendanceRecord.id record;
     row_date := toLocaleDateString_short P (Date_new P (AttendanceRecord.date record));
     row_subject := subjectName subjects record;
     row_status :=
       if String.eqb (AttendanceRecord.status record) "present"
       then "Present" else "Absent" |}.

(** The body of the details table: the placeholder row when there is no
    record, one row per record otherwise. *)
Inductive DetailsBody : Type :=
| NoRecordsFound
| Rows (rows : list DetailRow).

Definition detailsBody (attendanceRecords : list AttendanceRecord.t)
    (subjects : list Subject.t) : DetailsBody :=
  match attendanceRecords with
  | [] => NoRecordsFound
  | _ => Rows (map (detailRow subjects) attendanceRecords)
  end.
End Host.
End Dashboard.

(* ===================================================================== *)
(** * Asynchronous programs *)
(* ===================================================================== *)

Module Async.

(** How a promise settles. *)
Inductive Settled (X : Type) : Type :=
| Fulfilled (x : X)
| Rejected (reason : string).
Arguments Fulfilled {X} x.
Arguments Rejected {X} reason.

(** How a call ends: [return a], or an exception (for an [async] function,
    a rejected promise). *)
Inductive Outcome (A : Type) : Type :=
| Returned (a : A)
| Thrown (reason : string).
Arguments Returned {A} a.
Arguments Thrown {A} reason.

Section Programs.
(** [SyncE X]: a synchronous effect answering an [X]; [NetE X]: a request
    whose response body is an [X]. *)
Variables SyncE NetE : Type -> Type.

Inductive Prog (A : Type) : Type :=
| Ret (a : A)
| Throw (reason : string)
| Do {X : Type} (e : SyncE X) (k : X -> Prog A)
| Await {X : Type} (r : NetE X) (k : Settled X -> Prog A).
Arguments Ret {A} a.
Arguments Throw {A} reason.
Arguments Do {A X} e k.
Arguments Await {A X} r k.

Fixpoint bind {A B : Type} (p : Prog A) (f : A -> Prog B) : Prog B :=
  match p with
  | Ret a => f a
  | Throw e => Throw e
  | Do e k => Do e (fun x => bind (k x) f)
  | Await r k => Await r (fun s => bind (k s) f)
  end.

(** [try { p } catch (error) { h error }]. *)
Fixpoint try_catch {A : Type} (p : Prog A) (h : string -> Prog A) : Prog A :=
  match p with
  | Ret a => Ret a
  | Throw e => h e
  | Do e k => Do e (fun x => try_catch (k x) h)
  | Await r k => Await r (fun s => try_catch (k s) h)
  end.

(** [try { p } finally { q }]: [q] runs however [p] ends. *)
Fixpoint finally {A : Type} (p : Prog A) (q : Prog unit) : Prog A :=
  match p with
  | Ret a => bind q (fun _ => Ret a)
  | Throw e => bind q (fun _ => Throw e)
  | Do e k => Do e (fun x => finally (k x) q)
  | Await r k => Await r (fun s => finally (k s) q)
  end.

Definition perform {X : Type} (e : SyncE X) : Prog X := Do e Ret.

(** [await] of the promise of a request: its body, or the rejection
    thrown at the [await]. *)
Definition await {X : Type} (r : NetE X) : Prog X :=
  Await r (fun s => match s with
                    | Fulfilled x => Ret x
                    | Rejected e => Throw e
                    end).

(** ** Running a program against a network *)

Inductive Request : Type :=
| Req (X : Type) (r : NetE X).
Arguments Req {X} r.

Section Run.
Variable W : Type.
(** The meaning of the synchronous effects on the state [W]. *)
Variable handle : forall X : Type, SyncE X -> W -> W * X.
(** The network: how each request settles. *)
Variable net : forall X : Type, NetE X -> Settled X.

(** The result of a run: the final state, the outcome, and the requests
    in the order they were issued, each with the state it was issued
    in (the state the component shows while the request is pending). *)
Record Run (A : Type) : Type := mkRun {
  final : W;
  outcome : Outcome A;
  issued : list (Request * W)
}.
Arguments mkRun {A} final outcome issued.

Fixpoint run {A : Type} (p : Prog A) (w : W) : Run A :=
  match p with
  | Ret a => mkRun w (Returned a) []
  | Throw e => mkRun w (Thrown e) []
  | Do e k => let '(w', x) := handle _ e w in run (k x) w'
  | Await r k =>
      let rest := run (k (net _ r)) w in
      mkRun (final _ rest) (outcome _ rest) ((Req r, w) :: issued _ rest)
  end.
End Run.
End Programs.

Arguments Ret {SyncE NetE A} a.
Arguments Throw {SyncE NetE A} reason.
Arguments Do {SyncE NetE A X} e k.
Arguments Await {SyncE NetE A X} r k.
Arguments bind {SyncE NetE A B} p f.
Arguments try_catch {SyncE NetE A} p h.
Arguments finally {SyncE NetE A} p q.
Arguments perform {SyncE NetE X} e.
Arguments await {SyncE NetE X} r.
Arguments Req {NetE X} r.
Arguments run {SyncE NetE W} handle net {A} p w.
Arguments final {NetE W A} _.
Arguments outcome {NetE W A} _.
Arguments issued {NetE W A} _.

Declare Scope prog_scope.
Delimit Scope prog_scope with prog.
Notation "x <- p ;; q" := (bind p (fun x => q))
  (at level 61, p at next level, right associativity) : prog_scope.
Notation "p ;; q" := (bind p (fun _ => q))
  (at level 61, right associativity) : prog_scope.

End Async.

(* ===================================================================== *)
(** * The backend API *)
(* ===================================================================== *)

Module Api.
Record LoginData : Type := mkLoginData { access_token : string }.

Record RegisterData : Type := mkRegisterData {
  reg_name : string;
  reg_email : string;
  reg_password : string;
  reg_enrollment_number : string;
  reg_branch : string;
  reg_year : Z
}.

(** The requests of the client, indexed by the type of [response.data]. *)
Inductive NetE : Type -> Type :=
| POST_login (username password : string) : NetE LoginData
| POST_register (userData : RegisterData) : NetE unit
| GET_me : NetE User.t
| GET_attendance_summary : NetE (list AttendanceSummary.t)
| GET_attendance : NetE (list AttendanceRecord.t)
| GET_subjects : NetE (list Subject.t).

Definition Net : Type := forall X : Type, NetE X -> Async.Settled X.

(** The path of a request below the API base URL. *)
Definition path {X : Type} (r : NetE X) : string :=
  match r with
  | POST_login _ _ => "/login"
  | POST_register _ => "/register"
  | GET_me => "/me"
  | GET_attendance_summary => "/attendance/summary"
  | GET_attendance => "/attendance"
  | GET_subjects => "/subjects"
  end.

Definition requestPath (q : Async.Request NetE) : string :=
  match q with
  | Async.Req r => path r
  end.

(** A network given by how each endpoint settles. *)
Definition respond
    (login : Async.Settled LoginData) (register : Async.Settled unit)
    (me : Async.Settled User.t)
    (summary : Async.Settled (list AttendanceSummary.t))
    (records : Async.Settled (list AttendanceRecord.t))
    (subjects : Async.Settled (list Subject.t)) : Net :=
  fun X r =>
    match r in NetE X return Async.Settled X with
    | POST_login _ _ => login
    | POST_register _ => register
    | GET_me => me
    | GET_attendance_summary => summary
    | GET_attendance => records
    | GET_subjects => subjects
    end.
End Api.

(* ===================================================================== *)
(** * useAuth *)
(* ===================================================================== *)

Module UseAuth.
Import Async Api.
Local Open Scope prog_scope.

(** The state of one instance of the hook, and the browser's storage. *)
Record State : Type := mkState {
  isAuthenticated : bool;
  user : option User.t;
  loading : bool;
  localStorage : JsObject.t string;
  console : list string
}.

(** [useState(false)], [useState(null)], [useState(true)]. *)
Definition initial (storage : JsObject.t string) : State :=
  {| isAuthenticated := false; user := None; loading := true;
     localStorage := storage; console := [] |}.

Inductive SyncE : Type -> Type :=
| setIsAuthenticated (b : bool) : SyncE unit
| setUser (u : option User.t) : SyncE unit
| setLoading (b : bool) : SyncE unit
| localStorage_getItem (key : string) : SyncE (option string)
| localStorage_setItem (key value : string) : SyncE unit
| localStorage_removeItem (key : string) : SyncE unit
| console_error (msg : string) : SyncE unit.

Definition handle (X : Type) (e : SyncE X) (s : State) : State * X :=
  match e in SyncE X return State * X with
  | setIsAuthenticated b =>
      ({| isAuthenticated := b; user := user s; loading := loading s;
          localStorage := localStorage s; console := console s |}, tt)
  | setUser u =>
      ({| isAuthenticated := isAuthenticated s; user := u; loading := loading s;
          localStorage := localStorage s; console := console s |}, tt)
  | setLoading b =>
      ({| isAuthenticated := isAuthenticated s; user := user s; loading := b;
          localStorage := localStorage s; console := console s |}, tt)
  | localStorage_getItem key => (s, JsObject.get key (localStorage s))
  | localStorage_setItem key value =>
      ({| isAuthenticated := isAuthenticated s; user := user s; loading := loading s;
          localStorage := JsObject.set key value (localStorage s);
          console := console s |}, tt)
  | localStorage_removeItem key =>
      ({| isAuthenticated := isAuthenticated s; user := user s; loading := loading s;
          localStorage :=
            filter (fun kv => negb (String.eqb key (fst kv))) (localStorage s);
          console := console s |}, tt)
  | console_error msg =>
      ({| isAuthenticated := isAuthenticated s; user := user s; loading := loading s;
          localStorage := localStorage s; console := console s ++ [msg] |}, tt)
  end.

Definition M : Type -> Type := Prog SyncE NetE.

(** ToBoolean of the result of [getItem]: [null] and the empty string are
    falsy. *)
Definition truthy (token : option string) : bool :=
  match token with
  | Some s => negb (String.eqb s "")
  | None => false
  end.

(** [fetchUser] (App.js 102-114). *)
Definition fetchUser : M unit :=
  finally
    (try_catch
       (response <- await GET_me ;;
        perform (setUser (Some response)) ;;
        perform (setIsAuthenticated true))
       (fun error =>
          perform (console_error "Error fetching user:") ;;
          perform (setIsAuthenticated false) ;;
          perform (setUser None)))
    (perform (setLoading false)).

(** [login] (App.js 69-84). *)
Definition login (email password : string) : M bool :=
  try_catch
    (response <- await (POST_login email password) ;;
     perform (localStorage_setItem "token" (access_token response)) ;;
     perform (setIsAuthenticated true) ;;
     fetchUser ;;
     Ret true)
    (fun error =>
       perform (console_error "Login error:") ;;
       Ret false).

(** [register] (App.js 86-94). *)
Definition register (userData : RegisterData) : M bool :=
  try_catch
    (await (POST_register userData) ;;
     Ret true)
    (fun error =>
       perform (console_error "Registration error:") ;;
       Ret false).

(** [logout] (App.js 96-100). *)
Definition logout : M unit :=
  perform (localStorage_removeItem "token") ;;
  perform (setIsAuthenticated false) ;;
  perform (setUser None).

(** The mount effect (App.js 116-123). *)
Definition onMount : M unit :=
  token <- perform (localStorage_getItem "token") ;;
  if truthy token then fetchUser else perform (setLoading false).

Definition run {A : Type} (net : Net) (p : M A) (s : State) : Run NetE State A :=
  Async.run handle net p s.
End UseAuth.

(* ===================================================================== *)
(** * ProtectedRoute *)
(* ===================================================================== *)

Module ProtectedRoute.
(** What the guard renders. *)
Inductive Element : Type :=
| LoadingScreen
| Children
| Null.

(** The effect (App.js 133-137): the route passed to [navigate], if any. *)
Definition effect (isAuthenticated loading : bool) : option string :=
  if negb loading && negb isAuthenticated then Some "/login" else None.

(** The render (App.js 139-143). *)
Definition render (isAuthenticated loading : bool) : Element :=
  if loading then LoadingScreen
  else if isAuthenticated then Children else Null.
End ProtectedRoute.

(* ===================================================================== *)
(** * Dashboard: fetching at mount *)
(* ===================================================================== *)

Module DashboardFetch.
Import Async Api.
Local Open Scope prog_scope.

Record State : Type := mkState {
  attendanceSummary : list AttendanceSummary.t;
  attendanceRecords : list AttendanceRecord.t;
  subjects : list Subject.t;
  loading : bool;
  console : list string
}.

(** [useState([])] three times, [useState(true)]. *)
Definition initial : State :=
  {| attendanceSummary := []; attendanceRecords := []; subjects := [];
     loading := true; console := [] |}.

Inductive SyncE : Type -> Type :=
| setAttendanceSummary (v : list AttendanceSummary.t) : SyncE unit
| setAttendanceRecords (v : list AttendanceRecord.t) : SyncE unit
| setSubjects (v : list Subject.t) : SyncE unit
| setLoading (b : bool) : SyncE unit
| console_error (msg : string) : SyncE unit.

Definition handle (X : Type) (e : SyncE X) (s : State) : State * X :=
  match e in SyncE X return State * X with
  | setAttendanceSummary v =>
      ({| attendanceSummary := v; attendanceRecords := attendanceRecords s;
          subjects := subjects s; loading := loading s; console := console s |}, tt)
  | setAttendanceRecords v =>
      ({| attendanceSummary := attendanceSummary s; attendanceRecords := v;
          subjects := subjects s; loading := loading s; console := console s |}, tt)
  | setSubjects v =>
      ({| attendanceSummary := attendanceSummary s;
          attendanceRecords := attendanceRecords s;
          subjects := v; loading := loading s; console := console s |}, tt)
  | setLoading b =>
      ({| attendanceSummary := attendanceSummary s;
          attendanceRecords := attendanceRecords s;
          subjects := subjects s; loading := b; console := console s |}, tt)
  | console_error msg =>
      ({| attendanceSummary := attendanceSummary s;
          attendanceRecords := attendanceRecords s;
          subjects := subjects s; loading := loading s;
          console := console s ++ [msg] |}, tt)
  end.

Definition M : Type -> Type := Prog SyncE NetE.

(** [fetchData] (App.js 444-462). *)
Definition fetchData : M unit :=
  finally
    (try_catch
       (summaryResponse <- await GET_attendance_summary ;;
        perform (setAttendanceSummary summaryResponse) ;;
        recordsResponse <- await GET_attendance ;;
        perform (setAttendanceRecords recordsResponse) ;;
        subjectsResponse <- await GET_subjects ;;
        perform (setSubjects subjectsResponse))
       (fun error => perform (console_error "Error fetching data:")))
    (perform (setLoading false)).

Definition run {A : Type} (net : Net) (p : M A) (s : State) : Run NetE State A :=
  Async.run handle net p s.

(** The paths requested in a run, in order. *)
Definition requested {A : Type} (r : Run NetE State A) : list string :=
  map (fun q => requestPath (fst q)) (issued r).
End DashboardFetch.

(* ===================================================================== *)
(** * Sample data *)
(* ===================================================================== *)

Module Scenario.
Import Async Api.

(** Two classes attended, on the 2nd of January and the 1st of February. *)
Definition two_days : list AttendanceRecord.t :=
  [ AttendanceRecord.mk "r1" "s1" "2024-01-02" "present";
    AttendanceRecord.mk "r2" "s1" "2024-02-01" "present" ].

(** The records of the specification's example. *)
Definition three_records : list AttendanceRecord.t :=
  [ AttendanceRecord.mk "r1" "s1" "2024-01-01" "present";
    AttendanceRecord.mk "r2" "s2" "2024-01-01" "absent";
    AttendanceRecord.mk "r3" "s1" "2024-01-02" "present" ].

(** Two classes in January, the later one recorded first. *)
Definition mid_january : list AttendanceRecord.t :=
  [ AttendanceRecord.mk "r1" "s1" "2024-01-15" "present";
    AttendanceRecord.mk "r2" "s1" "2024-01-02" "absent" ].

Definition late : AttendanceRecord.t :=
  AttendanceRecord.mk "r9" "s7" "2024-03-04" "late".

Definition maths : Subject.t := Subject.mk "s1" "Mathematics" "MA101".
Definition physics : Subject.t := Subject.mk "s2" "Physics" "PH101".

Definition asha : User.t :=
  User.mk "Asha" "asha@example.org" "EN2024001" "CSE" 2.

Definition summary_rows : list AttendanceSummary.t :=
  [ AttendanceSummary.mk "s1" "Mathematics" "MA101" 10 9 90;
    AttendanceSummary.mk "s2" "Physics" "PH101" 8 4 50 ].

Definition down {X : Type} : Settled X := Rejected "Network Error".

(** The backend accepts the credentials but refuses [/me]. *)
Definition net_me_refused : Net :=
  respond (Fulfilled {| access_token := "tok-1" |}) (Fulfilled tt)
          (Rejected "Request failed with status code 401")
          down down down.

(** [/me] answers. *)
Definition net_me_ok : Net :=
  respond down down (Fulfilled asha) down down down.

(** Only the summary endpoint fails. *)
Definition net_summary_down : Net :=
  respond down down down
          down (Fulfilled three_records) (Fulfilled [maths; physics]).

(** Every dashboard endpoint answers. *)
Definition net_all_up : Net :=
  respond down down down
          (Fulfilled summary_rows) (Fulfilled three_records)
          (Fulfilled [maths; physics]).
End Scenario.

(* ===================================================================== *)
(** * The request interceptor *)
(* ===================================================================== *)

Module Interceptor.
(** The part of an axios request configuration the interceptor touches. *)
Record Config : Type := mkConfig { headers : JsObject.t string }.

(** The request interceptor (App.js 30-37): a truthy stored token is attached
    as a bearer credential. *)
Definition onRequest (localStorage : JsObject.t string) (config : Config) : Config :=
  match JsObject.get "token" localStorage with
  | Some token =>
      if UseAuth.truthy (Some token)
      then {| headers := JsObject.set "Authorization" ("Bearer " ++ token)
                                      (headers config) |}
      else config
  | None => config
  end.
End Interceptor.

(* ===================================================================== *)
(** * Several instances of the hook *)
(* ===================================================================== *)

(** [useAuth] is a hook, not a context: every component that calls it
    ([ProtectedRoute], [Login], [Register], [Dashboard]) has its own
    [isAuthenticated], [user] and [loading]; only [localStorage] (and the
    console) is common to them. *)
Module Instances.
Import Async Api.

Inductive Component : Type := TheGuard | TheDashboard.

Record Hook : Type := mkHook {
  isAuthenticated : bool;
  user : option User.t;
  loading : bool
}.

Record World : Type := mkWorld {
  guard : Hook;
  dashboard : Hook;
  localStorage : JsObject.t string;
  console : list string
}.

Definition hook (c : Component) (w : World) : Hook :=
  match c with
  | TheGuard => guard w
  | TheDashboard => dashboard w
  end.

(** The state the hook instance of component [c] works on. *)
Definition view (c : Component) (w : World) : UseAuth.State :=
  {| UseAuth.isAuthenticated := isAuthenticated (hook c w);
     UseAuth.user := user (hook c w);
     UseAuth.loading := loading (hook c w);
     UseAuth.localStorage := localStorage w;
     UseAuth.console := console w |}.

Definition update (c : Component) (w : World) (s : UseAuth.State) : World :=
  let h := {| isAuthenticated := UseAuth.isAuthenticated s;
              user := UseAuth.user s;
              loading := UseAuth.loading s |} in
  match c with
  | TheGuard =>
      {| guard := h; dashboard := dashboard w;
         localStorage := UseAuth.localStorage s; console := UseAuth.console s |}
  | TheDashboard =>
      {| guard := guard w; dashboard := h;
         localStorage := UseAuth.localStorage s; console := UseAuth.console s |}
  end.

(** The effects of the hook instance of component [c]. *)
Definition handle (c : Component) (X : Type) (e : UseAuth.SyncE X) (w : World)
  : World * X :=
  let '(s, x) := UseAuth.handle X e (view c w) in (update c w s, x).

Definition run {A : Type} (c : Component) (net : Net) (p : UseAuth.M A) (w : World)
  : Run NetE World A :=
  Async.run (handle c) net p w.
End Instances.

(* ===================================================================== *)
(** * The login form *)
(* ===================================================================== *)

Module LoginForm.
Import Async Api.
Local Open Scope prog_scope.

(** A program of the hook run inside a component with more effects. *)
Fixpoint lift {E F N : Type -> Type} {A : Type} (inj : forall X : Type, E X -> F X)
    (p : Prog E N A) : Prog F N A :=
  match p with
  | Ret a => Ret a
  | Throw e => Throw e
  | Do e k => Do (inj _ e) (fun x => lift inj (k x))
  | Await r k => Await r (fun s => lift inj (k s))
  end.

(** The state of [Login]: its four [useState] cells, the routes passed to
    [navigate], and its instance of the hook. *)
Record State : Type := mkState {
  email : string;
  password : string;
  error : string;
  loading : bool;
  navigated : list string;
  auth : UseAuth.State
}.

Definition initial (storage : JsObject.t string) : State :=
  {| email := ""; password := ""; error := ""; loading := false;
     navigated := []; auth := UseAuth.initial storage |}.

Inductive FormE : Type -> Type :=
| preventDefault : FormE unit
| setError (msg : string) : FormE unit
| setLoading (b : bool) : FormE unit
| navigate (to : string) : FormE unit.

Inductive SyncE (X : Type) : Type :=
| Form (e : FormE X)
| Hook (e : UseAuth.SyncE X).
Arguments Form {X} e.
Arguments Hook {X} e.

Definition handleForm (X : Type) (e : FormE X) (s : State) : State * X :=
  match e in FormE X return State * X with
  | preventDefault => (s, tt)
  | setError msg =>
      ({| email := email s; password := password s; error := msg;
          loading := loading s; navigated := navigated s; auth := auth s |}, tt)
  | setLoading b =>
      ({| email := email s; password := password s; error := error s;
          loading := b; navigated := navigated s; auth := auth s |}, tt)
  | navigate to =>
      ({| email := email s; password := password s; error := error s;
          loading := loading s; navigated := navigated s ++ [to];
          auth := auth s |}, tt)
  end.

Definition handle (X : Type) (e : SyncE X) (s : State) : State * X :=
  match e with
  | Form e => handleForm X e s
  | Hook e =>
      let '(a, x) := UseAuth.handle X e (auth s) in
      ({| email := email s; password := password s; error := error s;
          loading := loading s; navigated := navigated s; auth := a |}, x)
  end.

Definition M : Type -> Type := Prog SyncE NetE.

(** [handleSubmit] (App.js 155-172), with the [email] and [password] of the
    render it was created in. *)
Definition handleSubmit (email password : string) : M unit :=
  perform (Form preventDefault) ;;
  perform (Form (setError "")) ;;
  perform (Form (setLoading true)) ;;
  finally
    (try_catch
       (success <- lift (@Hook) (UseAuth.login email password) ;;
        if success : bool
        then perform (Form (navigate "/dashboard"))
        else perform (Form (setError "Invalid email or password")))
       (fun err => perform (Form (setError "An error occurred during login"))))
    (perform (Form (setLoading false))).

(** Submitting the form in state [s]. *)
Definition submit (net : Net) (s : State) : Run NetE State unit :=
  Async.run handle net (handleSubmit (email s) (password s)) s.
End LoginForm.

(* ===================================================================== *)
(** * The summary table and the tabs *)
(* ===================================================================== *)

Module SummaryTable.
(** [x >= y] on percentages. *)
Definition ge (x y : Q) : bool := Qle_bool y x.

(** The class of the status badge (App.js 695-701). *)
Definition badgeClass (item : AttendanceSummary.t) : string :=
  if ge (AttendanceSummary.attendance_percentage item) 75
  then "bg-green-100 text-green-800"
  else if ge (AttendanceSummary.attendance_percentage item) 60
       then "bg-yellow-100 text-yellow-800"
       else "bg-red-100 text-red-800".

(** The text of the status badge (App.js 703-707). *)
Definition badgeText (item : AttendanceSummary.t) : string :=
  if ge (AttendanceSummary.attendance_percentage item) 75
  then "Good"
  else if ge (AttendanceSummary.attendance_percentage item) 60
       then "Warning"
       else "Critical".
End SummaryTable.

Module Tabs.
Inductive Panel : Type := SummaryPanel | TrendPanel | DetailsPanel.

(** [useState("summary")]. *)
Definition initial : string := "summary".

(** The three tab buttons and their [onClick] (App.js 593-622): the value
    passed to [setActiveTab]. *)
Inductive Button : Type := SummaryButton | TrendButton | DetailsButton.

Definition tabOf (b : Button) : string :=
  match b with
  | SummaryButton => "summary"
  | TrendButton => "trend"
  | DetailsButton => "details"
  end.

Definition click (activeTab : string) (b : Button) : string := tabOf b.

(** Whether a button carries the classes of the active tab. *)
Definition highlighted (activeTab : string) (b : Button) : bool :=
  String.eqb activeTab (tabOf b).

(** The children [Dashboard] hands to [<AnimatePresence mode="wait">]
    (App.js 627-870): each panel is guarded by [activeTab === "..." && ...].
    What is on the page is up to [AnimatePresence], which keeps a leaving
    child until its exit animation has ended. *)
Definition presenceChildren (activeTab : string) : list Panel :=
  ((if String.eqb activeTab "summary" then [SummaryPanel] else []) ++
   (if String.eqb activeTab "trend" then [TrendPanel] else []) ++
   (if String.eqb activeTab "details" then [DetailsPanel] else []))%list.

Definition panelOf (b : Button) : Panel :=
  match b with
  | SummaryButton => SummaryPanel
  | TrendButton => TrendPanel
  | DetailsButton => DetailsPanel
  end.
End Tabs.

Module Sample.
Import Async Api.

(** The backend accepts the credentials and answers [/me]. *)
Definition net_login_ok : Net :=
  respond (Fulfilled {| access_token := "tok-1" |}) (Fulfilled tt)
          (Fulfilled Scenario.asha) Scenario.down Scenario.down Scenario.down.

(** The backend refuses everything. *)
Definition net_down : Net :=
  respond Scenario.down Scenario.down Scenario.down
          Scenario.down Scenario.down Scenario.down.

(** Only the subjects endpoint fails. *)
Definition net_subjects_down : Net :=
  respond Scenario.down Scenario.down Scenario.down
          (Fulfilled Scenario.summary_rows) (Fulfilled Scenario.three_records)
          Scenario.down.

(** A session left by an earlier visit. *)
Definition signed_in : UseAuth.State :=
  {| UseAuth.isAuthenticated := true;
     UseAuth.user := Some Scenario.asha;
     UseAuth.loading := false;
     UseAuth.localStorage := [("theme", "dark"); ("token", "tok-0")];
     UseAuth.console := [] |}.

(** Both the guard and the dashboard have fetched the user. *)
Definition on_dashboard : Instances.World :=
  {| Instances.guard := Instances.mkHook true (Some Scenario.asha) false;
     Instances.dashboard := Instances.mkHook true (Some Scenario.asha) false;
     Instances.localStorage := [("token", "tok-1")];
     Instances.console := [] |}.

Definition all_present : list AttendanceRecord.t :=
  [ AttendanceRecord.mk "r1" "s1" "2024-01-01" "present";
    AttendanceRecord.mk "r2" "s2" "2024-01-01" "present";
    AttendanceRecord.mk "r3" "s1" "2024-01-02" "present" ].
End Sample.

(* ===================================================================== *)
(** * Numbers in binary64 *)
(* ===================================================================== *)

(** A finite JavaScript number is a rational of the form [m * 2^e] with
    [|m| < 2^53] and [e >= -1074]. An arithmetic operation returns the exact
    result rounded to the nearest such number, ties to the even [m]
    (IEEE 754, roundTiesToEven). Results of magnitude [2^1024] or more
    (infinities) and NaN are not represented. *)
Module Binary64.
Local Open Scope Q_scope.

(** The integer part of the binary logarithm of a positive rational. *)
Definition ilog2 (x : Q) : Z :=
  let k := (Z.log2 (Qnum x) - Z.log2 (Zpos (Qden x)))%Z in
  if Qle_bool (2 ^ k) x then k else (k - 1)%Z.

(** The nearest integer, ties to even. *)
Definition rne (x : Q) : Z :=
  let f := Qfloor x in
  match Qcompare (x - inject_Z f) (1 # 2) with
  | Lt => f
  | Gt => (f + 1)%Z
  | Eq => if Z.even f then f else (f + 1)%Z
  end.

(** The exponent of the last place of a subnormal number. *)
Definition emin : Z := (-1074)%Z.

(** The exponent of the last place of the binary64 numbers around a
    positive [x]: 53 significant bits, not below [emin]. *)
Definition exponent (x : Q) : Z := Z.max (ilog2 x - 52) emin.

Definition round (x : Q) : Q :=
  match Qnum x with
  | Z0 => 0
  | Zpos _ => inject_Z (rne (x / 2 ^ exponent x)) * 2 ^ exponent x
  | Zneg _ => - (inject_Z (rne (- x / 2 ^ exponent (- x))) * 2 ^ exponent (- x))
  end.

(** [x / y] and [x * y] on numbers. *)
Definition div (x y : Q) : Q := round (x / y).
Definition mul (x y : Q) : Q := round (x * y).

(** The rational a hardware binary64 number stands for, for comparison
    with the definitions above; [None] for NaN and the infinities. *)
Definition of_float (f : PrimFloat.float) : option Q :=
  match FloatOps.Prim2SF f with
  | SpecFloat.S754_zero _ => Some 0
  | SpecFloat.S754_finite s m e =>
      Some ((if s then - (1) else 1) * inject_Z (Zpos m) * 2 ^ e)
  | _ => None
  end.

Definition float_of_Z (n : Z) : PrimFloat.float :=
  PrimFloat.of_uint63 (Uint63.of_Z n).
End Binary64.

(* ===================================================================== *)
(** * Dashboard: the trend values as computed *)
(* ===================================================================== *)

Module Dashboard64.
Import Chart Dashboard.
Local Open Scope Q_scope.

(** A counter as a number: [present] and [total] start at 0 and grow by 1,
    and an integer below [2^53] is a binary64 number. (An array has fewer
    than [2^32] elements.) *)
Definition count (n : nat) : Q := inject_Z (Z.of_nat n).

(** [total > 0 ? (present / total) * 100 : 0] (App.js 512) as the engine
    computes it: the quotient is rounded, then the product. *)
Definition percentage64 (b : Bucket) : Q :=
  if (0 <? total b)%nat
  then Binary64.mul (Binary64.div (count (present b)) (count (total b))) 100
  else 0.

(** [dates.map(date => ...)] (App.js 510-513); [None] is the TypeError of
    destructuring a missing bucket. *)
Fixpoint percentages64 (recordsByDate : JsObject.t Bucket) (dates : list string)
  : option (list Q) :=
  match dates with
  | [] => Some []
  | date :: dates' =>
      match JsObject.get date recordsByDate, percentages64 recordsByDate dates' with
      | Some b, Some ps => Some (percentage64 b :: ps)
      | _, _ => None
      end
  end.

Section Host.
Variable P : Platform.

(** [getTrendData] (App.js 494-528) with the values in binary64. *)
Definition getTrendData64 (attendanceRecords : list AttendanceRecord.t)
  : option Data :=
  let recordsByDate := groupByDate P attendanceRecords in
  let dates := sortedDates P recordsByDate in
  match percentages64 recordsByDate dates with
  | Some ps =>
      Some {| labels := dates;
              datasets :=
                [ {| label := "Daily Attendance %";
                     data := ps;
                     fill := Some false;
                     backgroundColor := Single "rgba(75, 192, 192, 0.6)";
                     borderColor := Single "rgba(75, 192, 192, 1)";
                     borderWidth := None;
                     tension := Some (1 # 10) |} ] |}
  | None => None
  end.
End Host.

(** The same expression on hardware binary64 numbers. *)
Definition hardware_percentage (present total : Z) : option Q :=
  Binary64.of_float
    (PrimFloat.mul
       (PrimFloat.div (Binary64.float_of_Z present) (Binary64.float_of_Z total))
       (Binary64.float_of_Z 100)).

(** Whether [percentage64] and the hardware agree on [0/total], ...,
    [(n-1)/total]. *)
Fixpoint agree_below (n : nat) (total : nat) : bool :=
  match n with
  | O => true
  | S n' =>
      match hardware_percentage (Z.of_nat n') (Z.of_nat total) with
      | Some v =>
          Qeq_bool v (percentage64 {| present := n'; total := total |})
          && agree_below n' total
      | None => false
      end
  end.
End Dashboard64.

Module Sample64.
(** Twenty classes on one day, eleven of them attended. *)
Definition eleven_of_twenty : list AttendanceRecord.t :=
  (repeat (AttendanceRecord.mk "r" "s1" "2024-01-01" "present") 11 ++
   repeat (AttendanceRecord.mk "r" "s1" "2024-01-01" "absent") 9)%list.
End Sample64.

(* ===================================================================== *)
(** * The reference browser at work *)
(* ===================================================================== *)

Example browser_us_label :
  toLocaleDateString (browser en_US 0) (Date_new (browser en_US 0) "2024-01-02")
  = "1/2/2024".
Proof. vm_compute. reflexivity. Qed.

Example browser_gb_label :
  toLocaleDateString (browser en_GB 0) (Date_new (browser en_GB 0) "2024-01-02")
  = "02/01/2024".
Proof. vm_compute. reflexivity. Qed.

Example browser_gb_reparse :
  Date_new (browser en_GB 0) "02/01/2024" = Date_new (browser en_GB 0) "2024-02-01".
Proof. vm_compute. reflexivity. Qed.

Example browser_gb_reparse_nan :
  Date_new (browser en_GB 0) "15/01/2024" = None.
Proof. vm_compute. reflexivity. Qed.

Example browser_local_day :
  toLocaleDateString (browser en_US (-300)) (Date_new (browser en_US (-300)) "2024-01-02")
  = "1/1/2024".
Proof. vm_compute. reflexivity. Qed.

Example browser_short :
  toLocaleDateString_short (browser en_IN 330)
    (Date_new (browser en_IN 330) "2024-01-02T10:30:00") = "Jan 2, 2024".
Proof. vm_compute. reflexivity. Qed.

(* ===================================================================== *)
(** * Properties: dictionaries and sorting *)
(* ===================================================================== *)


Module JsObjectFacts.
Import JsObject.
Section Facts.
Context {V : Type}.
Implicit Types (o : JsObject.t V) (k : string) (v : V).

Lemma get_set k k' v o :
  get k (set k' v o) = if String.eqb k k' then Some v else get k o.
Proof.
  induction o as [|[k0 v0] o IH]; simpl.
  - destruct (String.eqb k k'); reflexivity.
  - destruct (String.eqb_spec k' k0) as [->|Hne]; simpl.
    + destruct (String.eqb k k0); reflexivity.
    + rewrite IH. destruct (String.eqb_spec k k0) as [->|Hne'].
      * destruct (String.eqb_spec k0 k'); [congruence|reflexivity].
      * reflexivity.
Qed.

Lemma get_modify k k' (f : V -> V) o :
  get k (modify k' f o) =
  if String.eqb k k' then option_map f (get k o) else get k o.
Proof.
  induction o as [|[k0 v0] o IH]; simpl.
  - destruct (String.eqb k k'); reflexivity.
  - destruct (String.eqb_spec k' k0) as [->|Hne]; simpl.
    + destruct (String.eqb k k0); reflexivity.
    + rewrite IH. destruct (String.eqb_spec k k0) as [->|Hne'].
      * destruct (String.eqb_spec k0 k'); [congruence|reflexivity].
      * reflexivity.
Qed.

Lemma keys_modify k (f : V -> V) o : keys (modify k f o) = keys o.
Proof.
  unfold keys. induction o as [|[k0 v0] o IH]; simpl; [reflexivity|].
  destruct (String.eqb k k0); simpl; [reflexivity|]. now rewrite IH.
Qed.

Lemma get_None_keys k o : get k o = None <-> ~ In k (keys o).
Proof.
  unfold keys. induction o as [|[k0 v0] o IH]; simpl.
  - tauto.
  - destruct (String.eqb_spec k k0) as [->|Hne].
    + split; [discriminate|]. intros H. exfalso. apply H. now left.
    + rewrite IH. split.
      * intros H [E|HI]; [congruence|tauto].
      * intros H HI. apply H. now right.
Qed.

Lemma get_Some_keys k v o : get k o = Some v -> In k (keys o).
Proof.
  intros H. destruct (in_dec string_dec k (keys o)) as [HI|HI]; [exact HI|].
  apply get_None_keys in HI. congruence.
Qed.

Lemma keys_set_fresh k v o : get k o = None -> keys (set k v o) = (keys o ++ [k])%list.
Proof.
  unfold keys. induction o as [|[k0 v0] o IH]; simpl; [reflexivity|].
  destruct (String.eqb_spec k k0) as [->|Hne]; [discriminate|].
  intros H. simpl. now rewrite IH.
Qed.
End Facts.
End JsObjectFacts.

Module JsArrayFacts.
Import JsArray.
Section Facts.
Context {A : Type}.
Variable comparefn : A -> A -> option Z.

Lemma insert_perm x l : Permutation (x :: l) (insert comparefn x l).
Proof.
  induction l as [|y l IH]; simpl; [reflexivity|].
  destruct (SortCompare comparefn x y <=? 0); [reflexivity|].
  rewrite perm_swap. now constructor.
Qed.

Lemma sort_perm l : Permutation l (sort comparefn l).
Proof.
  induction l as [|x l IH]; simpl; [constructor|].
  rewrite <- insert_perm. now constructor.
Qed.

Lemma sort_In x l : In x (sort comparefn l) <-> In x l.
Proof.
  split; apply Permutation_in; [symmetry|]; apply sort_perm.
Qed.

Lemma sort_NoDup l : NoDup l -> NoDup (sort comparefn l).
Proof. apply Permutation_NoDup, sort_perm. Qed.

(** When the comparator is the difference of a numeric key that is never
    NaN on the elements sorted, the result is in ascending key order. *)
Section Keyed.
Variable key : A -> option Z.
Hypothesis compare_key :
  forall a b, comparefn a b =
    match key a, key b with
    | Some x, Some y => Some (x - y)
    | _, _ => None
    end.

Lemma insert_sorted x l :
  key x <> None -> Forall (fun a => key a <> None) l ->
  StronglySorted (keyLe key) l -> StronglySorted (keyLe key) (insert comparefn x l).
Proof.
  intros Hx Hl Hs. induction Hs as [|y l Hs IH Hy]; simpl.
  - repeat constructor.
  - inversion Hl as [|? ? Hky Hl']; subst.
    unfold SortCompare. rewrite compare_key.
    destruct (key x) as [kx|] eqn:Ex; [|congruence].
    destruct (key y) as [ky|] eqn:Ey; [|congruence].
    destruct (Z.leb_spec (kx - ky) 0) as [Hle|Hgt].
    + constructor; [constructor; assumption|].
      constructor.
      * unfold keyLe. rewrite Ex, Ey. lia.
      * rewrite Forall_forall in *. intros z Hz. specialize (Hy z Hz).
        unfold keyLe in *. rewrite Ex. rewrite Ey in Hy.
        destruct (key z); [lia|contradiction].
    + constructor; [apply IH; assumption|].
      rewrite Forall_forall. intros z Hz.
      apply (Permutation_in _ (Permutation_sym (insert_perm x l))) in Hz.
      destruct Hz as [<-|Hz].
      * unfold keyLe. rewrite Ex, Ey. lia.
      * rewrite Forall_forall in Hy. now apply Hy.
Qed.

Lemma sort_sorted l :
  Forall (fun a => key a <> None) l -> StronglySorted (keyLe key) (sort comparefn l).
Proof.
  induction l as [|x l IH]; simpl; intros Hl; [constructor|].
  inversion Hl as [|? ? Hx Hl']; subst. apply insert_sorted.
  - exact Hx.
  - apply Forall_forall. intros z Hz. apply (proj1 (sort_In z l)) in Hz.
    rewrite Forall_forall in Hl'. now apply Hl'.
  - apply IH; assumption.
Qed.
End Keyed.
End Facts.
End JsArrayFacts.

(* ===================================================================== *)
(** * Properties: the trend aggregation *)
(* ===================================================================== *)

Module TrendFacts.
Import Chart Dashboard JsObject JsObjectFacts.
Section Facts.
Variable P : Platform.
Implicit Types (o : JsObject.t Bucket) (r : AttendanceRecord.t) (k : string).

(** One step of the loop: only the bucket of the record's date changes; its
    [total] grows by one, its [present] by one exactly for 'present'. *)
Lemma groupRecord_get o r k :
  get k (groupRecord P o r) =
  if String.eqb k (dateKey P r)
  then Some {| present := match get k o with Some b => present b | None => 0 end
                          + (if String.eqb (AttendanceRecord.status r) "present" then 1 else 0);
               total := match get k o with Some b => total b | None => 0 end + 1 |}%nat
  else get k o.
Proof.
  unfold groupRecord.
  destruct (String.eqb_spec k (dateKey P r)) as [->|Hne].
  - destruct (get (dateKey P r) o) as [b|] eqn:E;
      destruct (String.eqb (AttendanceRecord.status r) "present");
      repeat (rewrite ?get_modify, ?get_set, ?String.eqb_refl, ?E; simpl);
      f_equal; f_equal; lia.
  - assert (Hf : String.eqb k (dateKey P r) = false)
      by (now apply String.eqb_neq).
    destruct (get (dateKey P r) o) as [b|] eqn:E;
      destruct (String.eqb (AttendanceRecord.status r) "present");
      repeat (rewrite ?get_modify, ?get_set, ?Hf; simpl); reflexivity.
Qed.

Lemma keys_groupRecord o r :
  keys (groupRecord P o r) =
  match get (dateKey P r) o with
  | Some _ => keys o
  | None => (keys o ++ [dateKey P r])%list
  end.
Proof.
  unfold groupRecord.
  destruct (get (dateKey P r) o) as [b|] eqn:E;
    destruct (String.eqb (AttendanceRecord.status r) "present");
    rewrite ?keys_modify; try reflexivity; now apply keys_set_fresh.
Qed.

Lemma NoDup_keys_groupRecord o r :
  NoDup (keys o) -> NoDup (keys (groupRecord P o r)).
Proof.
  intros H. rewrite keys_groupRecord.
  destruct (get (dateKey P r) o) eqn:E; [exact H|].
  apply (Permutation_NoDup (Permutation_cons_append _ _)).
  constructor; [|exact H]. now apply get_None_keys.
Qed.

Lemma NoDup_keys_fold records o :
  NoDup (keys o) -> NoDup (keys (fold_left (groupRecord P) records o)).
Proof.
  revert o. induction records as [|r rs IH]; simpl; intros o H; [exact H|].
  apply IH, NoDup_keys_groupRecord, H.
Qed.

(** The buckets after the loop, by counting. *)
Lemma fold_groupRecord_get records o k :
  get k (fold_left (groupRecord P) records o) =
  match get k o with
  | Some b => Some {| present := present b + presentCount P k records;
                      total := total b + totalCount P k records |}%nat
  | None => if Nat.eqb (totalCount P k records) 0 then None
            else Some {| present := presentCount P k records;
                         total := totalCount P k records |}
  end.
Proof.
  revert o. induction records as [|r rs IH]; intros o.
  - simpl. destruct (get k o) as [[p t]|]; [|reflexivity].
    simpl. now rewrite !Nat.add_0_r.
  - simpl fold_left. rewrite IH, groupRecord_get.
    unfold totalCount, presentCount. simpl filter.
    destruct (String.eqb k (dateKey P r)); simpl.
    + destruct (String.eqb (AttendanceRecord.status r) "present");
        destruct (get k o) as [[p t]|]; simpl; f_equal; f_equal; lia.
    + reflexivity.
Qed.

Lemma groupByDate_get records k :
  get k (groupByDate P records) =
  if Nat.eqb (totalCount P k records) 0 then None
  else Some {| present := presentCount P k records;
               total := totalCount P k records |}.
Proof. unfold groupByDate. now rewrite fold_groupRecord_get. Qed.

Lemma presentCount_le_totalCount k records :
  (presentCount P k records <= totalCount P k records)%nat.
Proof.
  unfold presentCount, totalCount.
  induction records as [|r rs IH]; simpl; [lia|].
  destruct (String.eqb k (dateKey P r)); simpl; [|exact IH].
  destruct (String.eqb (AttendanceRecord.status r) "present"); simpl; lia.
Qed.

(** The labels of the trend series are pairwise distinct strings. *)
Lemma sortedDates_NoDup records :
  NoDup (sortedDates P (groupByDate P records)).
Proof.
  apply JsArrayFacts.sort_NoDup. unfold groupByDate.
  apply NoDup_keys_fold. constructor.
Qed.

(** Every key of the grouping is the date of some record. *)
Lemma groupByDate_key_of_record records k :
  In k (keys (groupByDate P records)) ->
  totalCount P k records <> 0%nat /\
  exists r, In r records /\ dateKey P r = k.
Proof.
  intros H.
  destruct (get k (groupByDate P records)) as [b|] eqn:E;
    [|apply get_None_keys in E; contradiction].
  rewrite groupByDate_get in E.
  destruct (Nat.eqb_spec (totalCount P k records) 0) as [Hz|Hnz]; [discriminate|].
  split; [exact Hnz|].
  unfold totalCount in Hnz.
  destruct (filter (fun r => String.eqb k (dateKey P r)) records) as [|r l] eqn:Ef;
    [contradiction|].
  assert (Hr : In r (filter (fun r => String.eqb k (dateKey P r)) records))
    by (rewrite Ef; now left).
  apply filter_In in Hr. destruct Hr as [Hin Heq].
  exists r. split; [exact Hin|]. symmetry. now apply String.eqb_eq.
Qed.



End Facts.
End TrendFacts.

(* ===================================================================== *)
(** * The trend series *)
(* ===================================================================== *)

Import Chart Dashboard.

(** When every label parses back ([new Date(label)] is not NaN) and distinct
    labels parse back to distinct instants, the labels come out in strictly
    ascending order of the instants the comparator sees, without repetition.
    The runtime locale en-US is of this kind; en-GB and en-IN are not. *)
Lemma trend_dates_ascending_by_reparse (P : Platform)
    (records : list AttendanceRecord.t) :
  (forall r, In r records -> Date_new P (dateKey P r) <> None) ->
  (forall r1 r2, In r1 records -> In r2 records ->
     Date_new P (dateKey P r1) = Date_new P (dateKey P r2) ->
     dateKey P r1 = dateKey P r2) ->
  StronglySorted (JsArray.keyLt (Date_new P))
                 (sortedDates P (groupByDate P records)).
Proof.
  intros Hvalid Hinj.
  pose proof (TrendFacts.sortedDates_NoDup P records) as Hnd.
  assert (Hsrc : forall k, In k (sortedDates P (groupByDate P records)) ->
                 exists r, In r records /\ dateKey P r = k).
  { intros k Hk. apply JsArrayFacts.sort_In in Hk.
    now apply TrendFacts.groupByDate_key_of_record in Hk. }
  assert (Hs : StronglySorted (JsArray.keyLe (Date_new P))
                 (sortedDates P (groupByDate P records))).
  { apply JsArrayFacts.sort_sorted.
    - intros a b. reflexivity.
    - apply Forall_forall. intros k Hk.
      assert (Hk' : In k (sortedDates P (groupByDate P records)))
        by (now apply JsArrayFacts.sort_In).
      destruct (Hsrc k Hk') as [r [Hr <-]]. now apply Hvalid. }
  revert Hnd Hsrc Hs.
  generalize (sortedDates P (groupByDate P records)) as l.
  induction l as [|a l IH]; intros Hnd Hsrc Hs; [constructor|].
  inversion Hnd as [|? ? Hna Hnd']; subst.
  inversion Hs as [|? ? Hs' Hall]; subst.
  constructor.
  - apply IH; auto. intros k Hk. apply Hsrc. now right.
  - rewrite Forall_forall in *. intros z Hz. specialize (Hall z Hz).
    unfold JsArray.keyLe, JsArray.keyLt in *.
    destruct (Date_new P a) as [x|] eqn:Ea; [|contradiction].
    destruct (Date_new P z) as [y|] eqn:Ez; [|contradiction].
    assert (x <> y); [|lia].
    intros ->.
    destruct (Hsrc a (or_introl eq_refl)) as [ra [Hra Ka]].
    destruct (Hsrc z (or_intror Hz)) as [rz [Hrz Kz]].
    assert (Haz : a = z).
    { rewrite <- Ka, <- Kz. apply Hinj; auto. rewrite Ka, Kz. congruence. }
    apply Hna. rewrite Haz. exact Hz.
Qed.

(** C3. With no attendance record, [getTrendData] returns (does not throw)
    the empty series: no label and no value. *)
Theorem trend_of_no_records (P : Platform) :
  getTrendData P [] =
    Some {| labels := [];
            datasets :=
              [ {| label := "Daily Attendance %";
                   data := [];
                   fill := Some false;
                   backgroundColor := Single "rgba(75, 192, 192, 0.6)";
                   borderColor := Single "rgba(75, 192, 192, 1)";
                   borderWidth := None;
                   tension := Some (1 # 10)%Q |} ] |}.
Proof. reflexivity. Qed.

(** The example of the specification, in a browser whose locale is en-US. *)
Example trend_three_records_en_US :
  option_map (fun d => (labels d, map (fun ds => map Qred (data ds)) (datasets d)))
             (getTrendData (browser en_US 0) Scenario.three_records)
  = Some (["1/1/2024"; "1/2/2024"], [[50%Q; 100%Q]]).
Proof. vm_compute. reflexivity. Qed.

Example trend_two_days_en_US :
  option_map labels (getTrendData (browser en_US 0) Scenario.two_days)
  = Some ["1/2/2024"; "2/1/2024"].
Proof. vm_compute. reflexivity. Qed.

(** In en-US the labels of the sample parse back faithfully, and the general
    lemma applies. *)
Example trend_three_records_ascending_en_US :
  StronglySorted (JsArray.keyLt (Date_new (browser en_US 0)))
    (sortedDates (browser en_US 0)
       (groupByDate (browser en_US 0) Scenario.three_records)).
Proof.
  apply trend_dates_ascending_by_reparse.
  - intros r [<-|[<-|[<-|[]]]]; vm_compute; discriminate.
  - intros r1 r2 H1 H2.
    destruct H1 as [<-|[<-|[<-|[]]]]; destruct H2 as [<-|[<-|[<-|[]]]];
      vm_compute; intros E; (reflexivity || discriminate E).
Qed.

(** In en-IN a day of the month above 12 does not parse back at all: the
    comparator answers NaN and the labels stay as the records came. (With a
    NaN the comparator is not consistent and the order is left to the
    engine; an insertion sort, like the run detection of V8, leaves these
    two in place.) *)
Example trend_mid_january_en_IN :
  Date_new (browser en_IN 330) "15/1/2024" = None /\
  option_map labels (getTrendData (browser en_IN 330) Scenario.mid_january)
    = Some ["15/1/2024"; "2/1/2024"].
Proof. split; vm_compute; reflexivity. Qed.

(** C1. In a browser whose locale is en-GB, the records of the 2nd of
    January and of the 1st of February are grouped under the labels
    "02/01/2024" and "01/02/2024"; the comparator reads them back as the 1st
    of February and the 2nd of January, and the series lists the 1st of
    February before the 2nd of January: its dates are not ascending. *)
Theorem trend_dates_out_of_order_en_GB :
  let P := browser en_GB 0 in
  map (dateKey P) Scenario.two_days = ["02/01/2024"; "01/02/2024"] /\
  map (Date_new P) ["01/02/2024"; "02/01/2024"]
    = map (Date_new P) ["2024-01-02"; "2024-02-01"] /\
  option_map labels (getTrendData P Scenario.two_days)
    = Some ["01/02/2024"; "02/01/2024"] /\
  map (Browser.read_day en_GB) ["01/02/2024"; "02/01/2024"]
    = [Some (Calendar.days_from_civil 2024 2 1);
       Some (Calendar.days_from_civil 2024 1 2)] /\
  ~ StronglySorted (JsArray.keyLt (Browser.read_day en_GB))
      ["01/02/2024"; "02/01/2024"].
Proof.
  cbv zeta.
  do 4 (split; [vm_compute; reflexivity|]).
  intros H. inversion H as [|? ? _ Hall]; subst.
  inversion Hall as [|? ? Hlt _]; subst.
  vm_compute in Hlt. discriminate Hlt.
Qed.

(** C10. A record whose status is not the string 'present' adds one to the
    [total] of its date and nothing to any [present], in the loop step and in
    the buckets after the loop; its row in the details table reads "Absent";
    and a row reads either "Present" or "Absent". *)
Theorem non_present_counts_as_absent (P : Platform) (record : AttendanceRecord.t) :
  AttendanceRecord.status record <> "present" ->
  (forall recordsByDate,
     JsObject.get (dateKey P record) (groupRecord P recordsByDate record) =
     Some {| present := match JsObject.get (dateKey P record) recordsByDate with
                        | Some b => present b
                        | None => 0
                        end;
             total := match JsObject.get (dateKey P record) recordsByDate with
                      | Some b => total b
                      | None => 0
                      end + 1 |}%nat) /\
  (forall before after,
     JsObject.get (dateKey P record) (groupByDate P (before ++ record :: after)) =
     Some {| present := presentCount P (dateKey P record) (before ++ after);
             total := S (totalCount P (dateKey P record) (before ++ after)) |}) /\
  (forall before after date,
     presentCount P date (before ++ record :: after)
     = presentCount P date (before ++ after)) /\
  (forall subjects, row_status (detailRow P subjects record) = "Absent") /\
  (forall subjects r,
     row_status (detailRow P subjects r) = "Present" \/
     row_status (detailRow P subjects r) = "Absent").
Proof.
  intros Hs. apply String.eqb_neq in Hs.
  assert (Hp : forall before after date,
             presentCount P date (before ++ record :: after)
             = presentCount P date (before ++ after)).
  { intros before after date. unfold presentCount.
    rewrite !filter_app. simpl. rewrite Hs, andb_false_r. reflexivity. }
  assert (Ht : forall before after,
             totalCount P (dateKey P record) (before ++ record :: after)
             = S (totalCount P (dateKey P record) (before ++ after))).
  { intros before after. unfold totalCount.
    rewrite !filter_app. simpl. rewrite String.eqb_refl.
    rewrite !length_app. simpl. lia. }
  repeat split.
  - intros o. rewrite TrendFacts.groupRecord_get, String.eqb_refl, Hs.
    f_equal. f_equal. lia.
  - intros before after. rewrite TrendFacts.groupByDate_get, Ht, Hp. reflexivity.
  - exact Hp.
  - intros subjects. unfold detailRow. simpl. now rewrite Hs.
  - intros subjects r. unfold detailRow. simpl.
    destruct (String.eqb (AttendanceRecord.status r) "present"); auto.
Qed.

Lemma non_present_counts_as_absent_witness :
  AttendanceRecord.status Scenario.late <> "present" /\
  row_status (detailRow (browser en_US 0) [Scenario.maths] Scenario.late) = "Absent".
Proof.
  assert (H : AttendanceRecord.status Scenario.late <> "present")
    by (vm_compute; discriminate).
  split; [exact H|].
  apply (non_present_counts_as_absent (browser en_US 0) Scenario.late H).
Defined.

(* ===================================================================== *)
(** * The details table and the overall chart *)
(* ===================================================================== *)

Lemma find_first {A : Type} (f : A -> bool) (l1 l2 : list A) (x : A) :
  (forall y, In y l1 -> f y = false) -> f x = true ->
  find f (l1 ++ x :: l2) = Some x.
Proof.
  intros Hl1 Hx. induction l1 as [|y l1 IH]; simpl.
  - now rewrite Hx.
  - rewrite (Hl1 y (or_introl eq_refl)). apply IH.
    intros z Hz. apply Hl1. now right.
Qed.

Lemma Forall2_map_right {A B : Type} (R : A -> B -> Prop) (f : A -> B) (l : list A) :
  (forall x, R x (f x)) -> Forall2 R l (map f l).
Proof. intros H. induction l; simpl; constructor; auto. Qed.

(** C9. When there is at least one record, the details table has one row per
    record, in order (none is dropped). The subject cell of a row is
    "Unknown" when no known subject has the record's [subject_id], and the
    name of the first known subject with that id otherwise. *)
Theorem details_subject_label (P : Platform) (record : AttendanceRecord.t)
    (records : list AttendanceRecord.t) (subjects : list Subject.t) :
  exists rows,
    detailsBody P (record :: records) subjects = Rows rows /\
    List.length rows = List.length (record :: records) /\
    Forall2
      (fun rec row =>
         row_key row = AttendanceRecord.id rec /\
         ((forall s, In s subjects ->
                     Subject.id s <> AttendanceRecord.subject_id rec) ->
          row_subject row = "Unknown") /\
         (forall known_before s known_after,
            subjects = (known_before ++ s :: known_after)%list ->
            Subject.id s = AttendanceRecord.subject_id rec ->
            (forall s', In s' known_before ->
                        Subject.id s' <> AttendanceRecord.subject_id rec) ->
            row_subject row = Subject.name s))
      (record :: records) rows.
Proof.
  exists (map (detailRow P subjects) (record :: records)).
  split; [reflexivity|]. split; [apply length_map|].
  apply Forall2_map_right. intros rec.
  split; [reflexivity|]. unfold detailRow, subjectName. cbn [row_subject].
  split.
  - intros Hnone.
    destruct (find _ subjects) as [s|] eqn:E; [|reflexivity].
    apply find_some in E. destruct E as [Hin Heq].
    apply String.eqb_eq in Heq. exfalso. exact (Hnone s Hin Heq).
  - intros l1 s l2 -> Hid Hl1.
    rewrite (find_first _ l1 l2 s); [reflexivity| |].
    + intros y Hy. apply String.eqb_neq. now apply Hl1.
    + now apply String.eqb_eq.
Qed.

Example details_unknown_example :
  detailsBody (browser en_US 0) [Scenario.late] [Scenario.maths; Scenario.physics]
  = Rows [ {| row_key := "r9"; row_date := "Mar 4, 2024";
              row_subject := "Unknown"; row_status := "Absent" |} ].
Proof. vm_compute. reflexivity. Qed.

(** C8. The overall chart has exactly one dataset, labelled
    'Attendance Percentage'; its values are the attendance percentages of the
    summary rows and its labels their subject names, both in the order of the
    rows; its colours are a fixed palette of five, of which the chart gives
    element [i] the entry [i mod 5]. *)
Theorem overall_chart_series (attendanceSummary : list AttendanceSummary.t) :
  exists dataset,
    datasets (overallChartData attendanceSummary) = [dataset] /\
    label dataset = "Attendance Percentage" /\
    data dataset
      = map AttendanceSummary.attendance_percentage attendanceSummary /\
    labels (overallChartData attendanceSummary)
      = map AttendanceSummary.subject_name attendanceSummary /\
    backgroundColor dataset = Indexed backgroundPalette /\
    borderColor dataset = Indexed borderPalette /\
    forall i,
      nth_error (data dataset) i
        = option_map AttendanceSummary.attendance_percentage
                     (nth_error attendanceSummary i) /\
      resolve (backgroundColor dataset) i
        = nth_error backgroundPalette (Nat.modulo i 5) /\
      resolve (borderColor dataset) i
        = nth_error borderPalette (Nat.modulo i 5) /\
      resolve (backgroundColor dataset) (i + 5)
        = resolve (backgroundColor dataset) i /\
      exists colour,
        resolve (backgroundColor dataset) i = Some colour /\
        In colour backgroundPalette.
Proof.
  eexists. split; [reflexivity|]. cbn [label data backgroundColor borderColor].
  do 5 (split; [reflexivity|]).
  intros i. split; [apply nth_error_map|].
  do 2 (split; [reflexivity|]).
  unfold resolve, backgroundPalette. cbn [List.length].
  split.
  - replace (i + 5)%nat with (i + 1 * 5)%nat by lia.
    now rewrite Nat.Div0.mod_add.
  - pose proof (Nat.mod_upper_bound i 5 ltac:(discriminate)) as Hlt.
    destruct (Nat.modulo i 5) as [|[|[|[|[|n]]]]]; try lia;
      eexists; (split; [reflexivity|]); simpl; tauto.
Qed.

Example overall_chart_example :
  map data (datasets (overallChartData Scenario.summary_rows)) = [[90%Q; 50%Q]].
Proof. reflexivity. Qed.

(* ===================================================================== *)
(** * The route guard *)
(* ===================================================================== *)

(** C6. While the session is loading the guard navigates nowhere and renders
    the loading screen, whatever [isAuthenticated] is. Once loading is over,
    it navigates to "/login" when the session is not authenticated, and
    renders the wrapped view without navigating when it is. *)
Theorem guard_waits_for_session (isAuthenticated : bool) :
  ProtectedRoute.effect isAuthenticated true = None /\
  ProtectedRoute.render isAuthenticated true = ProtectedRoute.LoadingScreen /\
  ProtectedRoute.effect false false = Some "/login" /\
  ProtectedRoute.render false false = ProtectedRoute.Null /\
  ProtectedRoute.render true false = ProtectedRoute.Children /\
  ProtectedRoute.effect true false = None.
Proof. destruct isAuthenticated; repeat split. Qed.

(* ===================================================================== *)
(** * The session *)
(* ===================================================================== *)

Import Async Api.

(** C5. When the backend accepts the credentials and then refuses [/me],
    [login] returns [true], and the session it leaves is not authenticated
    and has no user; the token stays in the storage and loading is over. *)
Theorem login_then_fetchUser_failure (net : Net) (s : UseAuth.State)
    (email password : string) (data : LoginData) (reason : string) :
  net _ (POST_login email password) = Fulfilled data ->
  net _ GET_me = Rejected reason ->
  let r := UseAuth.run net (UseAuth.login email password) s in
  outcome r = Returned true /\
  UseAuth.isAuthenticated (final r) = false /\
  UseAuth.user (final r) = None /\
  UseAuth.loading (final r) = false /\
  JsObject.get "token" (UseAuth.localStorage (final r)) = Some (access_token data) /\
  map (fun q => requestPath (fst q)) (issued r) = ["/login"; "/me"].
Proof.
  intros Hlogin Hme. unfold UseAuth.run, UseAuth.login, UseAuth.fetchUser.
  cbn. rewrite Hlogin. cbn. rewrite Hme. cbn.
  repeat split. rewrite JsObjectFacts.get_set. reflexivity.
Qed.

Lemma login_then_fetchUser_failure_witness :
  let net := Scenario.net_me_refused in
  let r := UseAuth.run net (UseAuth.login "asha@example.org" "secret")
                       (UseAuth.initial []) in
  net _ (POST_login "asha@example.org" "secret")
    = Fulfilled {| access_token := "tok-1" |} /\
  net _ GET_me = Rejected "Request failed with status code 401" /\
  outcome r = Returned true /\
  UseAuth.isAuthenticated (final r) = false /\
  UseAuth.user (final r) = None.
Proof.
  cbv zeta. split; [reflexivity|]. split; [reflexivity|].
  pose proof (login_then_fetchUser_failure Scenario.net_me_refused
                (UseAuth.initial []) "asha@example.org" "secret"
                {| access_token := "tok-1" |}
                "Request failed with status code 401" eq_refl eq_refl) as H.
  cbv zeta in H. destruct H as [H1 [H2 [H3 _]]]. auto.
Defined.

(** A stored token that is the empty string is a persisted token, yet the
    mount effect does not fetch the user. *)
Lemma startup_empty_token_not_fetched :
  let storage := [("token", "")] in
  let r := UseAuth.run Scenario.net_me_ok UseAuth.onMount (UseAuth.initial storage) in
  JsObject.get "token" storage = Some "" /\
  issued r = [] /\
  UseAuth.loading (final r) = false /\
  UseAuth.isAuthenticated (final r) = false.
Proof. cbv zeta. repeat split. Qed.

(** C7. At startup, when the storage has no token, or an empty
    one, the session resolves to not loading and not authenticated without
    any request. When it has a non-empty token, exactly one request is
    issued, to [/me], in the initial state, where loading is true; when it
    settles, either way, loading becomes false, and the session is
    authenticated exactly when it was fulfilled. *)
Theorem startup_resolution (net : Net) (storage : JsObject.t string) :
  let s0 := UseAuth.initial storage in
  let r := UseAuth.run net UseAuth.onMount s0 in
  if UseAuth.truthy (JsObject.get "token" storage)
  then issued r = [(Req GET_me, s0)] /\
       UseAuth.loading s0 = true /\
       UseAuth.loading (final r) = false /\
       UseAuth.isAuthenticated (final r)
         = match net _ GET_me with Fulfilled _ => true | Rejected _ => false end /\
       UseAuth.user (final r)
         = match net _ GET_me with Fulfilled u => Some u | Rejected _ => None end
  else issued r = [] /\
       UseAuth.loading (final r) = false /\
       UseAuth.isAuthenticated (final r) = false /\
       UseAuth.user (final r) = None.
Proof.
  cbv zeta. unfold UseAuth.run, UseAuth.onMount. cbn.
  destruct (UseAuth.truthy (JsObject.get "token" storage)).
  - unfold UseAuth.fetchUser. cbn.
    destruct (net User.t GET_me); cbn; repeat split.
  - cbn. repeat split.
Qed.

(* ===================================================================== *)
(** * The dashboard's fetches *)
(* ===================================================================== *)

(** When the summary request fails, the two other requests are never issued
    (they neither complete nor fail), and loading is cleared all the same. *)
Lemma fetchData_stops_at_first_failure :
  let r := DashboardFetch.run Scenario.net_summary_down DashboardFetch.fetchData
                              DashboardFetch.initial in
  DashboardFetch.requested r = ["/attendance/summary"] /\
  ~ In "/attendance" (DashboardFetch.requested r) /\
  ~ In "/subjects" (DashboardFetch.requested r) /\
  DashboardFetch.loading (final r) = false.
Proof.
  cbv zeta. repeat split; try reflexivity;
    (intros [H|[]]; discriminate H).
Qed.

(** C4. [fetchData] issues its requests one after the other:
    the summary, then, if it was fulfilled, the records, then, if those were
    fulfilled, the subjects. The loading flag keeps its value while a request
    is pending and is cleared at the end of the sequence: after the third
    request has settled, or after the first one that was rejected. *)
Theorem fetchData_sequence (net : Net) (s : DashboardFetch.State) :
  let r := DashboardFetch.run net DashboardFetch.fetchData s in
  DashboardFetch.requested r =
    match net _ GET_attendance_summary with
    | Rejected _ => ["/attendance/summary"]
    | Fulfilled _ =>
        match net _ GET_attendance with
        | Rejected _ => ["/attendance/summary"; "/attendance"]
        | Fulfilled _ => ["/attendance/summary"; "/attendance"; "/subjects"]
        end
    end /\
  Forall (fun q => DashboardFetch.loading (snd q) = DashboardFetch.loading s)
         (issued r) /\
  DashboardFetch.loading (final r) = false /\
  outcome r = Returned tt.
Proof.
  cbv zeta. unfold DashboardFetch.run, DashboardFetch.requested,
    DashboardFetch.fetchData. cbn.
  destruct (net _ GET_attendance_summary); cbn;
    [destruct (net _ GET_attendance); cbn;
     [destruct (net _ GET_subjects); cbn|]|];
    repeat split; repeat constructor.
Qed.

Example fetchData_all_up :
  let r := DashboardFetch.run Scenario.net_all_up DashboardFetch.fetchData
                              DashboardFetch.initial in
  DashboardFetch.requested r = ["/attendance/summary"; "/attendance"; "/subjects"] /\
  DashboardFetch.attendanceRecords (final r) = Scenario.three_records /\
  DashboardFetch.loading (final r) = false.
Proof. cbv zeta. repeat split. Qed.

(* ===================================================================== *)
(** * More on the session *)
(* ===================================================================== *)

Lemma get_removeItem {V : Type} (key k : string) (o : JsObject.t V) :
  JsObject.get k (filter (fun kv => negb (String.eqb key (fst kv))) o) =
  if String.eqb k key then None else JsObject.get k o.
Proof.
  induction o as [|[k0 v0] o IH]; simpl.
  - now destruct (String.eqb k key).
  - destruct (String.eqb_spec key k0) as [->|Hne]; simpl.
    + rewrite IH. destruct (String.eqb_spec k k0); reflexivity.
    + rewrite IH. destruct (String.eqb_spec k k0) as [->|Hne'].
      * destruct (String.eqb_spec k0 key); [congruence|reflexivity].
      * reflexivity.
Qed.

(** X1. [login] never throws: it returns [true] when the backend accepted the
    credentials, whatever became of [/me], and [false] when the login request
    was rejected, whatever the reason. *)
Theorem login_reports_the_post (net : Net) (s : UseAuth.State)
    (email password : string) :
  outcome (UseAuth.run net (UseAuth.login email password) s) =
  Returned match net _ (POST_login email password) with
           | Fulfilled _ => true
           | Rejected _ => false
           end.
Proof.
  unfold UseAuth.run, UseAuth.login, UseAuth.fetchUser. cbn.
  destruct (net _ (POST_login email password)); cbn; [|reflexivity].
  destruct (net _ GET_me); reflexivity.
Qed.

(** X2. A rejected login request leaves the session and the storage as they
    were: one request was made, [/me] was not asked, no token was stored,
    and [loading] was not touched; the error went to the console. *)
Theorem login_rejected_changes_nothing (net : Net) (s : UseAuth.State)
    (email password reason : string) :
  net _ (POST_login email password) = Rejected reason ->
  let r := UseAuth.run net (UseAuth.login email password) s in
  issued r = [(Req (POST_login email password), s)] /\
  final r = {| UseAuth.isAuthenticated := UseAuth.isAuthenticated s;
               UseAuth.user := UseAuth.user s;
               UseAuth.loading := UseAuth.loading s;
               UseAuth.localStorage := UseAuth.localStorage s;
               UseAuth.console := (UseAuth.console s ++ ["Login error:"])%list |}.
Proof.
  intros H. unfold UseAuth.run, UseAuth.login. cbn. rewrite H. cbn.
  split; reflexivity.
Qed.

Lemma login_rejected_changes_nothing_witness :
  let r := UseAuth.run Sample.net_down (UseAuth.login "asha@example.org" "secret")
                       Sample.signed_in in
  UseAuth.isAuthenticated (final r) = true /\
  UseAuth.localStorage (final r) = [("theme", "dark"); ("token", "tok-0")].
Proof.
  cbv zeta.
  destruct (login_rejected_changes_nothing Sample.net_down Sample.signed_in
              "asha@example.org" "secret" "Network Error" eq_refl) as [_ E].
  rewrite E. split; reflexivity.
Defined.

(** X3. When the backend accepts the credentials and answers [/me], the session
    ends authenticated with the user of the answer, loading is over, and the
    token of the login answer replaces the stored one, the other stored keys
    being kept. The hook already says authenticated while [/me] is pending,
    with the user it had before. *)
Theorem login_accepted (net : Net) (s : UseAuth.State)
    (email password : string) (data : LoginData) (u : User.t) :
  net _ (POST_login email password) = Fulfilled data ->
  net _ GET_me = Fulfilled u ->
  let r := UseAuth.run net (UseAuth.login email password) s in
  UseAuth.isAuthenticated (final r) = true /\
  UseAuth.user (final r) = Some u /\
  UseAuth.loading (final r) = false /\
  (forall key,
     JsObject.get key (UseAuth.localStorage (final r)) =
     if String.eqb key "token" then Some (access_token data)
     else JsObject.get key (UseAuth.localStorage s)) /\
  exists pending,
    issued r = [(Req (POST_login email password), s); (Req GET_me, pending)] /\
    UseAuth.isAuthenticated pending = true /\
    UseAuth.user pending = UseAuth.user s.
Proof.
  intros Hlogin Hme. unfold UseAuth.run, UseAuth.login, UseAuth.fetchUser.
  cbn. rewrite Hlogin. cbn. rewrite Hme. cbn.
  split; [reflexivity|]. split; [reflexivity|]. split; [reflexivity|].
  split.
  - intros key. apply JsObjectFacts.get_set.
  - eexists. split; [reflexivity|]. split; reflexivity.
Qed.

Lemma login_accepted_witness :
  let r := UseAuth.run Sample.net_login_ok (UseAuth.login "asha@example.org" "secret")
                       (UseAuth.initial [("theme", "dark")]) in
  UseAuth.isAuthenticated (final r) = true /\
  UseAuth.user (final r) = Some Scenario.asha.
Proof.
  cbv zeta.
  destruct (login_accepted Sample.net_login_ok (UseAuth.initial [("theme", "dark")])
              "asha@example.org" "secret" {| access_token := "tok-1" |}
              Scenario.asha eq_refl eq_refl) as [H1 [H2 _]].
  split; assumption.
Defined.

(** X4. [register] makes one request, returns whether it was fulfilled, and does
    not sign the user in: the session and the storage stay as they were. *)
Theorem register_does_not_sign_in (net : Net) (s : UseAuth.State)
    (userData : RegisterData) :
  let r := UseAuth.run net (UseAuth.register userData) s in
  outcome r = Returned match net _ (POST_register userData) with
                       | Fulfilled _ => true
                       | Rejected _ => false
                       end /\
  issued r = [(Req (POST_register userData), s)] /\
  UseAuth.isAuthenticated (final r) = UseAuth.isAuthenticated s /\
  UseAuth.user (final r) = UseAuth.user s /\
  UseAuth.loading (final r) = UseAuth.loading s /\
  UseAuth.localStorage (final r) = UseAuth.localStorage s.
Proof.
  cbv zeta. unfold UseAuth.run, UseAuth.register. cbn.
  destruct (net _ (POST_register userData)); cbn;
    (split; [reflexivity|]); (split; [reflexivity|]);
    (split; [reflexivity|]); (split; [reflexivity|]); split; reflexivity.
Qed.

(** X5. [logout] makes no request; afterwards no token is stored, the other
    stored keys are kept, the session is not authenticated and has no user.
    Logging out twice is logging out once. *)
Theorem logout_clears_the_session (net : Net) (s : UseAuth.State) :
  let r := UseAuth.run net UseAuth.logout s in
  issued r = [] /\
  UseAuth.isAuthenticated (final r) = false /\
  UseAuth.user (final r) = None /\
  UseAuth.loading (final r) = UseAuth.loading s /\
  (forall key,
     JsObject.get key (UseAuth.localStorage (final r)) =
     if String.eqb key "token" then None
     else JsObject.get key (UseAuth.localStorage s)) /\
  final (UseAuth.run net UseAuth.logout (final r)) = final r.
Proof.
  cbv zeta. unfold UseAuth.run, UseAuth.logout. cbn -[String.eqb].
  do 4 (split; [reflexivity|]). split.
  - intros key. apply get_removeItem.
  - f_equal. induction (UseAuth.localStorage s) as [|[k v] o IH];
      cbn -[String.eqb]; [reflexivity|].
    destruct (String.eqb "token" k) eqn:E; cbn -[String.eqb]; [exact IH|].
    rewrite E. cbn -[String.eqb]. now rewrite IH.
Qed.

(** X6. [fetchUser] makes one request, never throws and never touches the
    storage; when it is over loading is off, and the session is authenticated
    exactly when it has a user, the one of the answer. *)
Theorem fetchUser_settles (net : Net) (s : UseAuth.State) :
  let r := UseAuth.run net UseAuth.fetchUser s in
  outcome r = Returned tt /\
  issued r = [(Req GET_me, s)] /\
  UseAuth.loading (final r) = false /\
  UseAuth.localStorage (final r) = UseAuth.localStorage s /\
  UseAuth.user (final r)
    = match net _ GET_me with Fulfilled u => Some u | Rejected _ => None end /\
  UseAuth.isAuthenticated (final r)
    = match UseAuth.user (final r) with Some _ => true | None => false end.
Proof.
  cbv zeta. unfold UseAuth.run, UseAuth.fetchUser. cbn.
  destruct (net _ GET_me); cbn;
    do 5 (split; [reflexivity|]); reflexivity.
Qed.

(** X7. After [logout] the interceptor adds nothing to a request: the
    configuration goes out as it came in. *)
Theorem no_bearer_after_logout (net : Net) (s : UseAuth.State)
    (config : Interceptor.Config) :
  Interceptor.onRequest
    (UseAuth.localStorage (final (UseAuth.run net UseAuth.logout s))) config
  = config.
Proof.
  unfold UseAuth.run, UseAuth.logout, Interceptor.onRequest. cbn -[String.eqb].
  now rewrite get_removeItem, String.eqb_refl.
Qed.

(** X8. Once the backend has accepted the credentials with a non-empty token, the
    interceptor sends that token as the bearer credential of a request,
    whether [/me] was answered or refused, and leaves the other headers of
    the request alone. *)
Theorem bearer_after_login (net : Net) (s : UseAuth.State)
    (email password : string) (data : LoginData) (config : Interceptor.Config) :
  net _ (POST_login email password) = Fulfilled data ->
  access_token data <> "" ->
  let storage :=
    UseAuth.localStorage (final (UseAuth.run net (UseAuth.login email password) s)) in
  forall header,
    JsObject.get header (Interceptor.headers (Interceptor.onRequest storage config)) =
    if String.eqb header "Authorization"
    then Some ("Bearer " ++ access_token data)
    else JsObject.get header (Interceptor.headers config).
Proof.
  intros Hlogin Htok. cbv zeta. intros header.
  assert (E : JsObject.get "token"
                (UseAuth.localStorage
                   (final (UseAuth.run net (UseAuth.login email password) s)))
              = Some (access_token data)).
  { unfold UseAuth.run, UseAuth.login, UseAuth.fetchUser.
    cbn -[String.eqb]. rewrite Hlogin. cbn -[String.eqb].
    destruct (net _ GET_me); cbn -[String.eqb];
      now rewrite JsObjectFacts.get_set, String.eqb_refl. }
  unfold Interceptor.onRequest. rewrite E. unfold UseAuth.truthy.
  apply String.eqb_neq in Htok. rewrite Htok. cbn -[String.eqb].
  apply JsObjectFacts.get_set.
Qed.

Lemma bearer_after_login_witness :
  JsObject.get "Authorization"
    (Interceptor.headers
       (Interceptor.onRequest
          (UseAuth.localStorage
             (final (UseAuth.run Scenario.net_me_refused
                       (UseAuth.login "asha@example.org" "secret")
                       (UseAuth.initial []))))
          {| Interceptor.headers := [("Accept", "application/json")] |}))
  = Some "Bearer tok-1".
Proof.
  apply (bearer_after_login Scenario.net_me_refused (UseAuth.initial [])
           "asha@example.org" "secret" {| access_token := "tok-1" |}
           {| Interceptor.headers := [("Accept", "application/json")] |}
           eq_refl).
  discriminate.
Defined.

(** X9. The guard on its own instance of the hook, from mount on: while [/me] is
    pending it shows the loading screen and navigates nowhere; once the
    startup is over it renders the wrapped view if there was a non-empty
    token and [/me] was answered, and otherwise renders nothing and navigates
    to "/login". *)
Theorem guard_after_startup (net : Net) (storage : JsObject.t string) :
  let r := UseAuth.run net UseAuth.onMount (UseAuth.initial storage) in
  let shown s :=
    (ProtectedRoute.render (UseAuth.isAuthenticated s) (UseAuth.loading s),
     ProtectedRoute.effect (UseAuth.isAuthenticated s) (UseAuth.loading s)) in
  Forall (fun q => shown (snd q) = (ProtectedRoute.LoadingScreen, None)) (issued r) /\
  shown (final r) =
    match UseAuth.truthy (JsObject.get "token" storage), net _ GET_me with
    | true, Fulfilled _ => (ProtectedRoute.Children, None)
    | _, _ => (ProtectedRoute.Null, Some "/login")
    end.
Proof.
  cbv zeta. unfold UseAuth.run, UseAuth.onMount. cbn.
  destruct (UseAuth.truthy (JsObject.get "token" storage)).
  - unfold UseAuth.fetchUser. cbn.
    destruct (net User.t GET_me); cbn; split; repeat constructor.
  - cbn. destruct (net User.t GET_me); split; constructor.
Qed.

(** X10. The token a login stored is what the next mount of the hook finds: a
    fresh instance over the storage left by an accepted login (with a
    non-empty token) asks [/me], and nothing else. *)
Theorem mount_after_login_fetches (net net' : Net) (s : UseAuth.State)
    (email password : string) (data : LoginData) :
  net _ (POST_login email password) = Fulfilled data ->
  access_token data <> "" ->
  let storage :=
    UseAuth.localStorage (final (UseAuth.run net (UseAuth.login email password) s)) in
  issued (UseAuth.run net' UseAuth.onMount (UseAuth.initial storage))
  = [(Req GET_me, UseAuth.initial storage)].
Proof.
  intros Hlogin Htok. cbv zeta.
  set (storage := UseAuth.localStorage _).
  assert (E : JsObject.get "token" storage = Some (access_token data)).
  { subst storage. unfold UseAuth.run, UseAuth.login, UseAuth.fetchUser.
    cbn -[String.eqb]. rewrite Hlogin. cbn -[String.eqb].
    destruct (net _ GET_me); cbn -[String.eqb];
      now rewrite JsObjectFacts.get_set, String.eqb_refl. }
  clearbody storage.
  unfold UseAuth.run, UseAuth.onMount. cbn -[String.eqb]. rewrite E.
  unfold UseAuth.truthy. apply String.eqb_neq in Htok. rewrite Htok.
  unfold UseAuth.fetchUser. cbn.
  destruct (net' User.t GET_me); reflexivity.
Qed.

Lemma mount_after_login_fetches_witness :
  map (fun q => requestPath (fst q))
      (issued (UseAuth.run Sample.net_down UseAuth.onMount
                 (UseAuth.initial
                    (UseAuth.localStorage
                       (final (UseAuth.run Sample.net_login_ok
                                 (UseAuth.login "asha@example.org" "secret")
                                 (UseAuth.initial [])))))))
  = ["/me"].
Proof.
  rewrite (mount_after_login_fetches Sample.net_login_ok Sample.net_down
             (UseAuth.initial []) "asha@example.org" "secret"
             {| access_token := "tok-1" |} eq_refl ltac:(discriminate)).
  reflexivity.
Defined.

(** X11. The next mount of the hook after a [logout] makes no request and
    resolves to not loading, not authenticated. *)
Theorem mount_after_logout_is_signed_out (net net' : Net) (s : UseAuth.State) :
  let storage := UseAuth.localStorage (final (UseAuth.run net UseAuth.logout s)) in
  let r := UseAuth.run net' UseAuth.onMount (UseAuth.initial storage) in
  issued r = [] /\
  UseAuth.loading (final r) = false /\
  UseAuth.isAuthenticated (final r) = false /\
  UseAuth.user (final r) = None.
Proof.
  cbv zeta. set (storage := UseAuth.localStorage _).
  assert (E : JsObject.get "token" storage = None).
  { subst storage. unfold UseAuth.run, UseAuth.logout. cbn -[String.eqb].
    now rewrite get_removeItem, String.eqb_refl. }
  clearbody storage.
  unfold UseAuth.run, UseAuth.onMount. cbn -[String.eqb]. rewrite E. cbn.
  repeat split.
Qed.

(* ===================================================================== *)
(** * Instances of the hook *)
(* ===================================================================== *)

Lemma handle_keeps_the_other (c : Instances.Component) (X : Type)
    (e : UseAuth.SyncE X) (w : Instances.World) :
  match c with
  | Instances.TheGuard =>
      Instances.dashboard (fst (Instances.handle c X e w)) = Instances.dashboard w
  | Instances.TheDashboard =>
      Instances.guard (fst (Instances.handle c X e w)) = Instances.guard w
  end.
Proof.
  unfold Instances.handle.
  destruct (UseAuth.handle X e (Instances.view c w)) as [s x].
  destruct c; reflexivity.
Qed.

Lemma run_keeps_the_other (c : Instances.Component) (net : Net) (A : Type)
    (p : UseAuth.M A) (w : Instances.World) :
  let other w :=
    match c with
    | Instances.TheGuard => Instances.dashboard w
    | Instances.TheDashboard => Instances.guard w
    end in
  other (final (Instances.run c net p w)) = other w /\
  Forall (fun q => other (snd q) = other w) (issued (Instances.run c net p w)).
Proof.
  cbv zeta. unfold Instances.run. revert w.
  induction p as [a|reason|X e k IH|X r k IH]; intros w; cbn.
  - split; constructor.
  - split; constructor.
  - pose proof (handle_keeps_the_other c X e w) as Hk.
    destruct (Instances.handle c X e w) as [w' x]. cbn in Hk.
    destruct (IH x w') as [H1 H2].
    destruct c; rewrite <- Hk; split; assumption.
  - destruct (IH (net X r) w) as [H1 H2].
    split; [exact H1|]. constructor; [reflexivity|exact H2].
Qed.

(** X13. The Logout button of the dashboard: the token is removed from the
    storage and the dashboard's own session is cleared, but the guard's
    session is unchanged, so the guard renders what it rendered and does not
    navigate to "/login". *)
Theorem logout_on_dashboard_keeps_the_guard (net : Net) (w : Instances.World) :
  let w' := final (Instances.run Instances.TheDashboard net UseAuth.logout w) in
  JsObject.get "token" (Instances.localStorage w') = None /\
  Instances.isAuthenticated (Instances.dashboard w') = false /\
  Instances.user (Instances.dashboard w') = None /\
  Instances.guard w' = Instances.guard w /\
  ProtectedRoute.render (Instances.isAuthenticated (Instances.guard w'))
                        (Instances.loading (Instances.guard w'))
  = ProtectedRoute.render (Instances.isAuthenticated (Instances.guard w))
                          (Instances.loading (Instances.guard w)) /\
  ProtectedRoute.effect (Instances.isAuthenticated (Instances.guard w'))
                        (Instances.loading (Instances.guard w'))
  = ProtectedRoute.effect (Instances.isAuthenticated (Instances.guard w))
                          (Instances.loading (Instances.guard w)).
Proof.
  cbv zeta.
  destruct (run_keeps_the_other Instances.TheDashboard net unit UseAuth.logout w)
    as [Hg _]. cbv zeta in Hg.
  split; [|split; [|split; [|split; [exact Hg|now rewrite Hg]]]].
  - unfold Instances.run, UseAuth.logout. cbn -[String.eqb].
    now rewrite get_removeItem, String.eqb_refl.
  - reflexivity.
  - reflexivity.
Qed.

Example logout_on_dashboard_example :
  let w' := final (Instances.run Instances.TheDashboard Sample.net_down
                     UseAuth.logout Sample.on_dashboard) in
  ProtectedRoute.render (Instances.isAuthenticated (Instances.guard w'))
                        (Instances.loading (Instances.guard w'))
  = ProtectedRoute.Children /\
  ProtectedRoute.effect (Instances.isAuthenticated (Instances.guard w'))
                        (Instances.loading (Instances.guard w'))
  = None.
Proof. cbv zeta. split; reflexivity. Qed.

(* ===================================================================== *)
(** * The login form *)
(* ===================================================================== *)

(** X14. Submitting the login form never throws and ends with the form not
    loading. If the login request was fulfilled the form navigates to
    "/dashboard" (whatever became of [/me]) and shows no error; if it was
    rejected, for whatever reason, the form does not navigate and shows
    "Invalid email or password". The message of the [catch] branch is never
    shown. While a request is pending the form is loading and shows no
    error. *)
Theorem login_form_submit (net : Net) (s : LoginForm.State) :
  let r := LoginForm.submit net s in
  outcome r = Returned tt /\
  LoginForm.loading (final r) = false /\
  LoginForm.email (final r) = LoginForm.email s /\
  LoginForm.password (final r) = LoginForm.password s /\
  (LoginForm.navigated (final r), LoginForm.error (final r)) =
    match net _ (POST_login (LoginForm.email s) (LoginForm.password s)) with
    | Fulfilled _ => ((LoginForm.navigated s ++ ["/dashboard"])%list, "")
    | Rejected _ => (LoginForm.navigated s, "Invalid email or password")
    end /\
  LoginForm.error (final r) <> "An error occurred during login" /\
  Forall (fun q => LoginForm.loading (snd q) = true /\ LoginForm.error (snd q) = "")
         (issued r).
Proof.
  cbv zeta. unfold LoginForm.submit, LoginForm.handleSubmit, UseAuth.login,
    UseAuth.fetchUser. cbn.
  destruct (net _ (POST_login (LoginForm.email s) (LoginForm.password s))); cbn.
  - destruct (net _ GET_me); cbn;
      do 5 (split; [reflexivity|]); (split; [discriminate|]);
      repeat constructor.
  - do 5 (split; [reflexivity|]). split; [discriminate|]. repeat constructor.
Qed.

(* ===================================================================== *)
(** * What the dashboard shows after its fetches *)
(* ===================================================================== *)

(** X15. What [fetchData] leaves in the state: an answer is stored only if all the
    requests before it were fulfilled too; what did not arrive keeps the
    value it had. *)
Theorem fetchData_stores_what_arrived (net : Net) (s : DashboardFetch.State) :
  let r := DashboardFetch.run net DashboardFetch.fetchData s in
  DashboardFetch.attendanceSummary (final r) =
    match net _ GET_attendance_summary with
    | Fulfilled v => v
    | Rejected _ => DashboardFetch.attendanceSummary s
    end /\
  DashboardFetch.attendanceRecords (final r) =
    match net _ GET_attendance_summary, net _ GET_attendance with
    | Fulfilled _, Fulfilled v => v
    | _, _ => DashboardFetch.attendanceRecords s
    end /\
  DashboardFetch.subjects (final r) =
    match net _ GET_attendance_summary, net _ GET_attendance, net _ GET_subjects with
    | Fulfilled _, Fulfilled _, Fulfilled v => v
    | _, _, _ => DashboardFetch.subjects s
    end.
Proof.
  cbv zeta. unfold DashboardFetch.run, DashboardFetch.fetchData. cbn.
  destruct (net _ GET_attendance_summary); cbn;
    [destruct (net _ GET_attendance); cbn;
     [destruct (net _ GET_subjects); cbn|]|];
    split; try split; reflexivity.
Qed.

(** X16. When the summary request is rejected at mount, the dashboard has nothing
    to show, whatever the two other endpoints would have answered: the
    details table is the "no records" row, the trend series and the overall
    chart are empty. *)
Theorem summary_failure_empties_the_dashboard (P : Platform) (net : Net)
    (reason : string) :
  net _ GET_attendance_summary = Rejected reason ->
  let s := final (DashboardFetch.run net DashboardFetch.fetchData
                                     DashboardFetch.initial) in
  detailsBody P (DashboardFetch.attendanceRecords s) (DashboardFetch.subjects s)
    = NoRecordsFound /\
  option_map labels (getTrendData P (DashboardFetch.attendanceRecords s)) = Some [] /\
  labels (overallChartData (DashboardFetch.attendanceSummary s)) = [] /\
  DashboardFetch.loading s = false.
Proof.
  intros H. cbv zeta. unfold DashboardFetch.run, DashboardFetch.fetchData. cbn.
  rewrite H. cbn. repeat split.
Qed.

Lemma summary_failure_empties_the_dashboard_witness :
  Scenario.net_summary_down _ GET_attendance = Fulfilled Scenario.three_records /\
  detailsBody (browser en_US 0)
    (DashboardFetch.attendanceRecords
       (final (DashboardFetch.run Scenario.net_summary_down
                 DashboardFetch.fetchData DashboardFetch.initial)))
    (DashboardFetch.subjects
       (final (DashboardFetch.run Scenario.net_summary_down
                 DashboardFetch.fetchData DashboardFetch.initial)))
  = NoRecordsFound.
Proof.
  split; [reflexivity|].
  apply (summary_failure_empties_the_dashboard (browser en_US 0)
           Scenario.net_summary_down "Network Error" eq_refl).
Defined.

(** X17. When only the subjects request is rejected, the records still arrive and
    are all listed, each under the subject "Unknown". *)
Theorem subjects_failure_lists_unknown (P : Platform) (net : Net)
    (summary : list AttendanceSummary.t)
    (record : AttendanceRecord.t) (records : list AttendanceRecord.t)
    (reason : string) :
  net _ GET_attendance_summary = Fulfilled summary ->
  net _ GET_attendance = Fulfilled (record :: records) ->
  net _ GET_subjects = Rejected reason ->
  let s := final (DashboardFetch.run net DashboardFetch.fetchData
                                     DashboardFetch.initial) in
  exists rows,
    detailsBody P (DashboardFetch.attendanceRecords s) (DashboardFetch.subjects s)
      = Rows rows /\
    map row_key rows = map AttendanceRecord.id (record :: records) /\
    Forall (fun row => row_subject row = "Unknown") rows.
Proof.
  intros H1 H2 H3. cbv zeta.
  unfold DashboardFetch.run, DashboardFetch.fetchData. cbn.
  rewrite H1. cbn. rewrite H2. cbn. rewrite H3. cbn.
  eexists. split; [reflexivity|]. split.
  - cbn [map]. f_equal. rewrite map_map. reflexivity.
  - constructor; [reflexivity|].
    apply Forall_forall. intros row Hrow. apply in_map_iff in Hrow.
    destruct Hrow as [rec [<- _]]. reflexivity.
Qed.

Lemma subjects_failure_lists_unknown_witness :
  exists rows,
    detailsBody (browser en_US 0)
      (DashboardFetch.attendanceRecords
         (final (DashboardFetch.run Sample.net_subjects_down
                   DashboardFetch.fetchData DashboardFetch.initial)))
      (DashboardFetch.subjects
         (final (DashboardFetch.run Sample.net_subjects_down
                   DashboardFetch.fetchData DashboardFetch.initial)))
    = Rows rows /\
    map row_key rows = ["r1"; "r2"; "r3"] /\
    Forall (fun row => row_subject row = "Unknown") rows.
Proof.
  apply (subjects_failure_lists_unknown (browser en_US 0) Sample.net_subjects_down
           Scenario.summary_rows
           (AttendanceRecord.mk "r1" "s1" "2024-01-01" "present")
           [ AttendanceRecord.mk "r2" "s2" "2024-01-01" "absent";
             AttendanceRecord.mk "r3" "s1" "2024-01-02" "present" ]
           "Network Error" eq_refl eq_refl eq_refl).
Defined.

(* ===================================================================== *)
(** * More on the trend series *)
(* ===================================================================== *)

Section TrendSeries.
Variable P : Platform.
Implicit Types (records : list AttendanceRecord.t) (date : string).

Lemma record_date_is_key records r :
  In r records -> In (dateKey P r) (JsObject.keys (groupByDate P records)).
Proof.
  intros Hr.
  destruct (JsObject.get (dateKey P r) (groupByDate P records)) as [b|] eqn:E.
  - now apply JsObjectFacts.get_Some_keys in E.
  - rewrite TrendFacts.groupByDate_get in E.
    destruct (Nat.eqb_spec (totalCount P (dateKey P r) records) 0) as [Hz|_];
      [|discriminate].
    unfold totalCount in Hz. apply length_zero_iff_nil in Hz.
    assert (Hin : In r (filter (fun r' => String.eqb (dateKey P r) (dateKey P r'))
                               records))
      by (apply filter_In; split; [exact Hr|apply String.eqb_refl]).
    rewrite Hz in Hin. destruct Hin.
Qed.

Lemma percentages_of_counts records dates :
  (forall d, In d dates -> In d (JsObject.keys (groupByDate P records))) ->
  percentages (groupByDate P records) dates =
  Some (map (fun d => percentage {| present := presentCount P d records;
                                    total := totalCount P d records |}) dates).
Proof.
  induction dates as [|d ds IH]; intros H; [reflexivity|].
  simpl. rewrite IH by (intros; apply H; now right).
  rewrite TrendFacts.groupByDate_get.
  destruct (TrendFacts.groupByDate_key_of_record P records d (H d (or_introl eq_refl)))
    as [Hnz _].
  destruct (Nat.eqb_spec (totalCount P d records) 0); [contradiction|reflexivity].
Qed.

(** [getTrendData] in closed form: the sorted keys, and for each the ratio
    of its two record counts. *)
Lemma getTrendData_closed_form records :
  getTrendData P records =
  Some {| labels := sortedDates P (groupByDate P records);
          datasets :=
            [ {| label := "Daily Attendance %";
                 data := map (fun d => percentage
                                {| present := presentCount P d records;
                                   total := totalCount P d records |})
                             (sortedDates P (groupByDate P records));
                 fill := Some false;
                 backgroundColor := Single "rgba(75, 192, 192, 0.6)";
                 borderColor := Single "rgba(75, 192, 192, 1)";
                 borderWidth := None;
                 tension := Some (1 # 10)%Q |} ] |}.
Proof.
  unfold getTrendData. rewrite percentages_of_counts; [reflexivity|].
  intros d Hd. now apply JsArrayFacts.sort_In in Hd.
Qed.

Lemma list_sum_map_add {A : Type} (f g : A -> nat) (l : list A) :
  list_sum (map (fun x => f x + g x)%nat l)
  = (list_sum (map f l) + list_sum (map g l))%nat.
Proof. induction l as [|x l IH]; simpl; [reflexivity|]. rewrite IH. lia. Qed.

Lemma list_sum_indicator (x : string) (n : nat) (ks : list string) :
  NoDup ks -> In x ks ->
  list_sum (map (fun k => if String.eqb k x then n else 0%nat) ks) = n.
Proof.
  intros Hnd. induction Hnd as [|k ks Hk Hnd IH]; intros Hin; [destruct Hin|].
  simpl. destruct (String.eqb_spec k x) as [->|Hne].
  - assert (Hz : list_sum (map (fun k => if String.eqb k x then n else 0%nat) ks)
                 = 0%nat).
    { clear IH Hin Hnd. induction ks as [|k ks IH]; simpl; [reflexivity|].
      destruct (String.eqb_spec k x) as [->|_];
        [exfalso; apply Hk; now left|].
      apply IH. intros H. apply Hk. now right. }
    rewrite Hz. lia.
  - destruct Hin as [->|Hin]; [congruence|]. now apply IH.
Qed.

(** Over a list of distinct dates that has the date of every record, the
    counts of the records that satisfy [q] add up to their number. *)
Lemma counts_add_up (q : AttendanceRecord.t -> bool) records (ks : list string) :
  NoDup ks -> (forall r, In r records -> In (dateKey P r) ks) ->
  list_sum (map (fun k => List.length
                   (filter (fun r => String.eqb k (dateKey P r) && q r) records)) ks)
  = List.length (filter q records).
Proof.
  intros Hnd. induction records as [|r rs IH]; intros Hall.
  - simpl. clear Hnd Hall. induction ks; simpl; auto.
  - rewrite (map_ext _
       (fun k => ((if String.eqb k (dateKey P r) then (if q r then 1 else 0) else 0)
                  + List.length
                      (filter (fun r => String.eqb k (dateKey P r) && q r) rs))%nat)).
    + rewrite list_sum_map_add, IH by (intros; apply Hall; now right).
      rewrite list_sum_indicator; [|exact Hnd|apply Hall; now left].
      simpl. destruct (q r); reflexivity.
    + intros k. simpl.
      destruct (String.eqb k (dateKey P r)); destruct (q r); reflexivity.
Qed.

Lemma filter_length_perm {A : Type} (f : A -> bool) (l l' : list A) :
  Permutation l l' -> List.length (filter f l) = List.length (filter f l').
Proof.
  intros H. induction H; simpl; try congruence.
  - destruct (f x); simpl; congruence.
  - destruct (f x); destruct (f y); reflexivity.
Qed.


End TrendSeries.

(** X18. The labels of the trend series are exactly the dates of the records,
    each once; the values are as many as the labels, and never more than the
    records. *)
Theorem trend_labels_are_the_dates (P : Platform)
    (records : list AttendanceRecord.t) :
  exists dates values,
    getTrendData P records =
      Some {| labels := dates;
              datasets :=
                [ {| label := "Daily Attendance %";
                     data := values;
                     fill := Some false;
                     backgroundColor := Single "rgba(75, 192, 192, 0.6)";
                     borderColor := Single "rgba(75, 192, 192, 1)";
                     borderWidth := None;
                     tension := Some (1 # 10)%Q |} ] |} /\
    NoDup dates /\
    (forall date, In date dates <->
                  exists r, In r records /\ dateKey P r = date) /\
    List.length values = List.length dates /\
    (List.length dates <= List.length records)%nat.
Proof.
  eexists. eexists. split; [apply getTrendData_closed_form|].
  assert (Hiff : forall date,
             In date (sortedDates P (groupByDate P records)) <->
             exists r, In r records /\ dateKey P r = date).
  { intros date. split.
    - intros H. apply JsArrayFacts.sort_In in H.
      now apply TrendFacts.groupByDate_key_of_record in H.
    - intros [r [Hr <-]]. apply JsArrayFacts.sort_In.
      now apply record_date_is_key. }
  split; [apply TrendFacts.sortedDates_NoDup|].
  split; [exact Hiff|]. split; [apply length_map|].
  rewrite <- (length_map (dateKey P) records).
  apply NoDup_incl_length; [apply TrendFacts.sortedDates_NoDup|].
  intros d Hd. apply Hiff in Hd. destruct Hd as [r [Hr <-]].
  now apply in_map.
Qed.

(** X19. Every record is counted under exactly one label: over the labels of the
    series, the totals of the buckets add up to the number of records and
    their present counters to the number of records whose status is
    'present'. *)
Theorem trend_counts_every_record_once (P : Platform)
    (records : list AttendanceRecord.t) :
  exists dates values,
    getTrendData P records =
      Some {| labels := dates;
              datasets :=
                [ {| label := "Daily Attendance %";
                     data := values;
                     fill := Some false;
                     backgroundColor := Single "rgba(75, 192, 192, 0.6)";
                     borderColor := Single "rgba(75, 192, 192, 1)";
                     borderWidth := None;
                     tension := Some (1 # 10)%Q |} ] |} /\
    exists buckets,
      Forall2 (fun date b => JsObject.get date (groupByDate P records) = Some b)
              dates buckets /\
      list_sum (map total buckets) = List.length records /\
      list_sum (map present buckets) =
        List.length (filter (fun r => String.eqb (AttendanceRecord.status r) "present")
                            records).
Proof.
  eexists. eexists. split; [apply getTrendData_closed_form|].
  set (dates := sortedDates P (groupByDate P records)).
  assert (Hnd : NoDup dates) by apply TrendFacts.sortedDates_NoDup.
  assert (Hall : forall r, In r records -> In (dateKey P r) dates).
  { intros r Hr. apply JsArrayFacts.sort_In. now apply record_date_is_key. }
  assert (Hkeys : forall d, In d dates ->
                  In d (JsObject.keys (groupByDate P records))).
  { intros d Hd. now apply JsArrayFacts.sort_In in Hd. }
  exists (map (fun d => {| present := presentCount P d records;
                           total := totalCount P d records |}) dates).
  split; [|split].
  - clear Hnd Hall. induction dates as [|d ds IH]; simpl; constructor.
    + rewrite TrendFacts.groupByDate_get.
      destruct (TrendFacts.groupByDate_key_of_record P records d
                  (Hkeys d (or_introl eq_refl))) as [Hnz _].
      destruct (Nat.eqb_spec (totalCount P d records) 0);
        [contradiction|reflexivity].
    + apply IH. intros d' Hd'. apply Hkeys. now right.
  - rewrite map_map. cbn [total].
    transitivity (List.length (filter (fun _ : AttendanceRecord.t => true) records)).
    + rewrite <- (counts_add_up P (fun _ => true) records dates Hnd Hall).
      f_equal. apply map_ext. intros k.
      unfold totalCount. f_equal. apply filter_ext. intros r.
      now rewrite andb_true_r.
    + clear. induction records as [|r rs IH]; simpl; congruence.
  - rewrite map_map. cbn [present].
    apply (counts_add_up P
             (fun r => String.eqb (AttendanceRecord.status r) "present")
             records dates Hnd Hall).
Qed.

Lemma Forall2_map_right_in {A B : Type} (R : A -> B -> Prop) (f : A -> B)
    (l : list A) :
  (forall x, In x l -> R x (f x)) -> Forall2 R l (map f l).
Proof.
  induction l as [|x l IH]; intros H; simpl; constructor.
  - apply H. now left.
  - apply IH. intros y Hy. apply H. now right.
Qed.




Example trend_all_present_example :
  option_map (fun d => map (fun ds => map Qred (data ds)) (datasets d))
             (getTrendData (browser en_US 0) Sample.all_present)
  = Some [[100%Q; 100%Q]].
Proof. vm_compute. reflexivity. Qed.

(** X21. When every label parses back ([new Date(label)] is not NaN) and distinct
    labels parse back to distinct instants, the labels of the series are in
    strictly ascending order of those instants. *)
Theorem trend_dates_ascending (P : Platform) (records : list AttendanceRecord.t) :
  (forall r, In r records -> Date_new P (dateKey P r) <> None) ->
  (forall r1 r2, In r1 records -> In r2 records ->
     Date_new P (dateKey P r1) = Date_new P (dateKey P r2) ->
     dateKey P r1 = dateKey P r2) ->
  exists series,
    getTrendData P records = Some series /\
    StronglySorted (JsArray.keyLt (Date_new P)) (labels series).
Proof.
  intros Hvalid Hinj. eexists. split; [apply getTrendData_closed_form|].
  cbn [labels]. now apply trend_dates_ascending_by_reparse.
Qed.

Lemma trend_dates_ascending_witness :
  exists series,
    getTrendData (browser en_US 0) Scenario.three_records = Some series /\
    StronglySorted (JsArray.keyLt (Date_new (browser en_US 0))) (labels series).
Proof.
  apply trend_dates_ascending.
  - intros r [<-|[<-|[<-|[]]]]; vm_compute; discriminate.
  - intros r1 r2 H1 H2.
    destruct H1 as [<-|[<-|[<-|[]]]]; destruct H2 as [<-|[<-|[<-|[]]]];
      vm_compute; intros E; (reflexivity || discriminate E).
Defined.

(** X22. The buckets do not depend on the order in which the records arrive: two
    collections with the same records have the same counters, hence the same
    percentage, for every date. *)
Theorem trend_buckets_ignore_record_order (P : Platform)
    (records records' : list AttendanceRecord.t) :
  Permutation records records' ->
  forall date,
    JsObject.get date (groupByDate P records)
    = JsObject.get date (groupByDate P records').
Proof.
  intros Hperm date. rewrite !TrendFacts.groupByDate_get.
  unfold totalCount, presentCount.
  rewrite (filter_length_perm _ _ _ Hperm).
  rewrite (filter_length_perm
             (fun r => String.eqb date (dateKey P r)
                       && String.eqb (AttendanceRecord.status r) "present")
             _ _ Hperm).
  reflexivity.
Qed.

Lemma trend_buckets_ignore_record_order_witness :
  JsObject.get "1/1/2024" (groupByDate (browser en_US 0) Scenario.three_records)
  = JsObject.get "1/1/2024"
      (groupByDate (browser en_US 0) (rev Scenario.three_records)).
Proof.
  apply (trend_buckets_ignore_record_order (browser en_US 0)
           Scenario.three_records (rev Scenario.three_records)).
  apply Permutation_rev.
Defined.

(* ===================================================================== *)
(** * The status badge and the tabs *)
(* ===================================================================== *)

(** X23. The badge of a summary row: its text is "Good" from 75 up, "Critical"
    below 60 and "Warning" in between, and its colour always goes with its
    text: green with "Good", yellow with "Warning", red with "Critical". *)
Theorem badge_follows_the_percentage (item : AttendanceSummary.t) :
  let p := AttendanceSummary.attendance_percentage item in
  (SummaryTable.badgeText item = "Good" <-> (75 <= p)%Q) /\
  (SummaryTable.badgeText item = "Warning" <-> (60 <= p)%Q /\ (p < 75)%Q) /\
  (SummaryTable.badgeText item = "Critical" <-> (p < 60)%Q) /\
  In (SummaryTable.badgeText item, SummaryTable.badgeClass item)
     [("Good", "bg-green-100 text-green-800");
      ("Warning", "bg-yellow-100 text-yellow-800");
      ("Critical", "bg-red-100 text-red-800")].
Proof.
  cbv zeta. unfold SummaryTable.badgeText, SummaryTable.badgeClass, SummaryTable.ge.
  set (p := AttendanceSummary.attendance_percentage item).
  destruct (Qle_bool 75 p) eqn:E75; destruct (Qle_bool 60 p) eqn:E60.
  - apply Qle_bool_iff in E75. apply Qle_bool_iff in E60.
    split; [|split; [|split]].
    + split; auto.
    + split; [discriminate|]. intros [_ H]. exfalso. exact (Qlt_not_le _ _ H E75).
    + split; [discriminate|]. intros H. exfalso. exact (Qlt_not_le _ _ H E60).
    + left. reflexivity.
  - apply Qle_bool_iff in E75.
    assert (H60 : ~ (60 <= p)%Q) by (rewrite <- Qle_bool_iff; congruence).
    exfalso. apply H60. apply Qle_trans with 75%Q; [discriminate|exact E75].
  - apply Qle_bool_iff in E60.
    assert (H75 : ~ (75 <= p)%Q) by (rewrite <- Qle_bool_iff; congruence).
    split; [|split; [|split]].
    + split; [discriminate|]. intros H. contradiction.
    + split; [|reflexivity]. intros _. split; [exact E60|].
      now apply Qnot_le_lt.
    + split; [discriminate|]. intros H. exfalso. exact (Qlt_not_le _ _ H E60).
    + right. left. reflexivity.
  - assert (H60 : ~ (60 <= p)%Q) by (rewrite <- Qle_bool_iff; congruence).
    assert (H75 : ~ (75 <= p)%Q) by (rewrite <- Qle_bool_iff; congruence).
    split; [|split; [|split]].
    + split; [discriminate|]. intros H. contradiction.
    + split; [discriminate|]. intros [H _]. contradiction.
    + split; [|reflexivity]. intros _. now apply Qnot_le_lt.
    + right. right. left. reflexivity.
Qed.

Lemma clicks_end_on_last (clicks : list Tabs.Button) :
  fold_left Tabs.click clicks Tabs.initial
  = Tabs.tabOf (last clicks Tabs.SummaryButton).
Proof.
  induction clicks as [|c cs _] using rev_ind; [reflexivity|].
  rewrite fold_left_app, last_last. reflexivity.
Qed.

(** X24. After any sequence of clicks on the tab buttons, starting from the
    initial tab, [Dashboard] hands exactly one child to [AnimatePresence]:
    the panel of the button clicked last (the summary if none was), and that
    button alone is highlighted. *)
Theorem one_child_after_clicks (clicks : list Tabs.Button) :
  let activeTab := fold_left Tabs.click clicks Tabs.initial in
  let current := last clicks Tabs.SummaryButton in
  Tabs.presenceChildren activeTab = [Tabs.panelOf current] /\
  forall b, Tabs.highlighted activeTab b = true <-> b = current.
Proof.
  cbv zeta. rewrite clicks_end_on_last.
  destruct (last clicks Tabs.SummaryButton); split; try reflexivity;
    intros b; destruct b; cbn; split; (reflexivity || discriminate).
Qed.

(* ===================================================================== *)
(** * Properties: rounding to binary64 *)
(* ===================================================================== *)

Module Binary64Facts.
Import Binary64.
Local Open Scope Q_scope.

Lemma pow2_pos (k : Z) : 0 < 2 ^ k.
Proof. apply Qpower_0_lt. reflexivity. Qed.

Lemma pow2_add (a b : Z) : 2 ^ (a + b) == 2 ^ a * 2 ^ b.
Proof. apply Qpower_plus. discriminate. Qed.

Lemma pow2_le (a b : Z) : (a <= b)%Z -> 2 ^ a <= 2 ^ b.
Proof. intros H. apply Qpower_le_compat_l; [exact H|discriminate]. Qed.

Lemma pow2_Z (a : Z) : (0 <= a)%Z -> 2 ^ a == inject_Z (2 ^ a).
Proof. intros H. symmetry. apply (Zpower_Qpower 2 a H). Qed.

(** [rne x] is within one half of [x]. *)
Lemma rne_spec (x : Q) :
  - (1 # 2) <= inject_Z (rne x) - x /\ inject_Z (rne x) - x <= 1 # 2.
Proof.
  unfold rne. pose proof (Qfloor_le x) as Hlo. pose proof (Qlt_floor x) as Hhi.
  rewrite inject_Z_plus in Hhi. change (inject_Z 1) with 1 in Hhi.
  destruct (Qcompare_spec (x - inject_Z (Qfloor x)) (1 # 2)) as [E|E|E].
  - destruct (Z.even (Qfloor x)); rewrite ?inject_Z_plus;
      change (inject_Z 1) with 1; split; lra.
  - split; lra.
  - rewrite inject_Z_plus. change (inject_Z 1) with 1. split; lra.
Qed.

(** Rounding to an integer does not cross an integer. *)
Lemma rne_ge (x : Q) (N : Z) : inject_Z N <= x -> (N <= rne x)%Z.
Proof.
  intros H. pose proof (Qfloor_resp_le _ _ H) as Hf. rewrite Qfloor_Z in Hf.
  unfold rne. destruct (Qcompare _ _); [destruct (Z.even _)| |]; lia.
Qed.

Lemma rne_le (x : Q) (N : Z) : x <= inject_Z N -> (rne x <= N)%Z.
Proof.
  intros H. pose proof (Qfloor_le x) as Hlo.
  assert (Hf : (Qfloor x <= N)%Z).
  { rewrite Zle_Qle. lra. }
  unfold rne.
  destruct (Qcompare_spec (x - inject_Z (Qfloor x)) (1 # 2)) as [E|E|E].
  - assert (Hlt : (Qfloor x < N)%Z).
    { rewrite Zlt_Qlt. lra. }
    destruct (Z.even _); lia.
  - exact Hf.
  - assert (Hlt : (Qfloor x < N)%Z).
    { rewrite Zlt_Qlt. lra. }
    lia.
Qed.

Lemma ilog2_le (x : Q) : 0 < x -> 2 ^ ilog2 x <= x.
Proof.
  intros Hx. unfold ilog2.
  destruct (Qle_bool (2 ^ (Z.log2 (Qnum x) - Z.log2 (Z.pos (Qden x)))) x) eqn:E.
  - now apply Qle_bool_iff.
  - clear E. destruct x as [n d]. cbn [Qnum Qden].
    assert (Hn : (0 < n)%Z).
    { unfold Qlt in Hx. cbn in Hx. lia. }
    pose proof (Z.log2_spec n Hn) as [Ha _].
    pose proof (Z.log2_spec (Z.pos d) (Pos2Z.is_pos d)) as [_ Hb].
    pose proof (Z.log2_nonneg n) as Ha0.
    pose proof (Z.log2_nonneg (Z.pos d)) as Hb0.
    set (a := Z.log2 n) in *. set (b := Z.log2 (Z.pos d)) in *.
    replace (a - b - 1)%Z with (a + - (b + 1))%Z by lia.
    rewrite pow2_add, Qpower_opp, (pow2_Z a Ha0), (pow2_Z (b + 1)) by lia.
    rewrite (Qmake_Qdiv n d).
    assert (H2b : 0 < inject_Z (2 ^ (b + 1))).
    { rewrite <- pow2_Z by lia. apply pow2_pos. }
    assert (Hd : 0 < inject_Z (Z.pos d)) by reflexivity.
    apply Qle_shift_div_l; [exact Hd|].
    unfold Qdiv. rewrite <- Qmult_assoc, (Qmult_comm (/ _)), Qmult_assoc.
    apply Qle_shift_div_r; [exact H2b|].
    rewrite <- !inject_Z_mult, <- Zle_Qle.
    replace (Z.succ b) with (b + 1)%Z in Hb by lia.
    nia.
Qed.

Lemma round_pos_eq (x : Q) :
  0 < x -> round x = inject_Z (rne (x / 2 ^ exponent x)) * 2 ^ exponent x.
Proof.
  intros Hx. unfold round. destruct x as [[|n|n] d]; try reflexivity;
    unfold Qlt in Hx; cbn in Hx; lia.
Qed.

Lemma round_nonneg (x : Q) : 0 < x -> 0 <= round x.
Proof.
  intros Hx. rewrite (round_pos_eq x Hx).
  apply Qmult_le_0_compat; [|apply Qlt_le_weak, pow2_pos].
  change 0 with (inject_Z 0). rewrite <- Zle_Qle. apply rne_ge.
  change (inject_Z 0) with 0.
  apply Qle_shift_div_l; [apply pow2_pos|]. lra.
Qed.

Lemma exponent_nonpos (x : Q) (N : Z) :
  0 < x -> x <= inject_Z N -> (N < 2 ^ 53)%Z -> (exponent x <= 0)%Z.
Proof.
  intros Hx Hle HN. unfold exponent, emin.
  pose proof (ilog2_le x Hx) as Hl.
  destruct (Z.le_gt_cases 53 (ilog2 x)) as [Hbig|Hsmall]; [|lia].
  exfalso. pose proof (pow2_le 53 (ilog2 x) Hbig) as Hp.
  rewrite (pow2_Z 53) in Hp by lia.
  assert (H : inject_Z (2 ^ 53) <= inject_Z N) by lra.
  rewrite <- Zle_Qle in H. lia.
Qed.

(** Rounding does not cross an integer below [2^53]: such an integer is a
    binary64 number at the exponent of anything smaller. *)
Lemma round_le_Z (x : Q) (N : Z) :
  0 < x -> x <= inject_Z N -> (N < 2 ^ 53)%Z -> round x <= inject_Z N.
Proof.
  intros Hx Hle HN. rewrite (round_pos_eq x Hx).
  pose proof (exponent_nonpos x N Hx Hle HN) as He.
  set (e := exponent x) in *.
  assert (Hpe : 2 ^ e * inject_Z (2 ^ (- e)) == 1).
  { rewrite <- pow2_Z by lia. rewrite <- pow2_add.
    replace (e + - e)%Z with 0%Z by lia. reflexivity. }
  assert (Hr : (rne (x / 2 ^ e) <= N * 2 ^ (- e))%Z).
  { apply rne_le. rewrite inject_Z_mult.
    apply Qle_shift_div_r; [apply pow2_pos|].
    rewrite <- Qmult_assoc, (Qmult_comm (inject_Z (2 ^ (- e)))), Hpe. lra. }
  rewrite Zle_Qle, inject_Z_mult in Hr.
  pose proof (pow2_pos e) as Hpos.
  apply Qle_trans with (inject_Z N * inject_Z (2 ^ (- e)) * 2 ^ e).
  - apply Qmult_le_compat_r; [exact Hr|lra].
  - rewrite <- Qmult_assoc, (Qmult_comm (inject_Z (2 ^ (- e)))), Hpe. lra.
Qed.

(** In the normal range the relative error of a rounding is at most
    [2^-53]. *)
Lemma round_error (x : Q) :
  2 ^ (-1022) <= x -> Qabs (round x - x) <= x * (1 # 9007199254740992).
Proof.
  intros Hn. pose proof (pow2_pos (-1022)) as Hp.
  assert (Hx : 0 < x) by lra.
  rewrite (round_pos_eq x Hx).
  pose proof (ilog2_le x Hx) as Hl.
  set (e := exponent x).
  pose proof (pow2_pos e) as Hpe.
  pose proof (rne_spec (x / 2 ^ e)) as [Hr1 Hr2].
  assert (Hhalf : 2 ^ e * (1 # 2) <= x * (1 # 9007199254740992)).
  { assert (E53 : (1 # 9007199254740992) == 2 ^ (-53)) by reflexivity.
    assert (E1 : (1 # 2) == 2 ^ (-1)) by reflexivity.
    rewrite E53, E1, <- pow2_add.
    unfold e, exponent, emin.
    destruct (Z.max_spec (ilog2 x - 52) (-1074)) as [[_ ->]|[_ ->]].
    - change (-1074 + -1)%Z with (-1022 + -53)%Z. rewrite pow2_add.
      apply Qmult_le_compat_r; [exact Hn|]. apply Qlt_le_weak, pow2_pos.
    - replace (ilog2 x - 52 + -1)%Z with (ilog2 x + -53)%Z by lia.
      rewrite pow2_add.
      apply Qmult_le_compat_r; [exact Hl|]. apply Qlt_le_weak, pow2_pos. }
  set (z := x / 2 ^ e) in *. set (m := inject_Z (rne z)) in *.
  assert (Hd : m * 2 ^ e - x == (m - z) * 2 ^ e).
  { unfold z. field. lra. }
  assert (H1 : (m - z) * 2 ^ e <= (1 # 2) * 2 ^ e).
  { apply Qmult_le_compat_r; lra. }
  assert (H2 : - (1 # 2) * 2 ^ e <= (m - z) * 2 ^ e).
  { apply Qmult_le_compat_r; lra. }
  rewrite Hd. apply Qabs_Qle_condition.
  remember (2 ^ e) as p. remember ((m - z) * p) as w.
  clear - Hhalf H1 H2. split; lra.
Qed.
End Binary64Facts.

(* ===================================================================== *)
(** * The trend values as computed *)
(* ===================================================================== *)

Section TrendValues.
Import Dashboard64.
Local Open Scope Q_scope.

(** The two roundings of [(present / total) * 100] stay within 0 and 100 and
    within a relative error of [2^-51] of the exact ratio. *)
Lemma percentage64_sound (p t : nat) :
  (0 < t)%nat -> (p <= t)%nat -> (Z.of_nat t < 4294967296)%Z ->
  let v := Binary64.mul (Binary64.div (count p) (count t)) 100 in
  0 <= v /\ v <= 100 /\
  Qabs (v - 100 * count p / count t)
    <= (100 * count p / count t) * (1 # 2251799813685248).
Proof.
  intros Ht Hpt Hbound. cbv zeta.
  assert (Hct1 : 1 <= count t).
  { unfold count. change 1 with (inject_Z 1). rewrite <- Zle_Qle. lia. }
  assert (Hct : count t <= 4294967296).
  { unfold count. change 4294967296 with (inject_Z 4294967296).
    rewrite <- Zle_Qle. lia. }
  assert (E : 100 * count p / count t == 100 * (count p / count t)).
  { unfold Qdiv. ring. }
  rewrite E. clear E.
  destruct p as [|p].
  - assert (Ev : Binary64.mul (Binary64.div (count 0) (count t)) 100 = 0)
      by reflexivity.
    rewrite Ev.
    assert (E0 : count 0 / count t == 0).
    { unfold count. change (inject_Z (Z.of_nat 0)) with 0. unfold Qdiv. ring. }
    rewrite E0. split; [lra|]. split; [lra|].
    apply Qabs_Qle_condition. split; lra.
  - assert (Hcp1 : 1 <= count (S p)).
    { unfold count. change 1 with (inject_Z 1). rewrite <- Zle_Qle. lia. }
    assert (Hcpt : count (S p) <= count t).
    { unfold count. rewrite <- Zle_Qle. lia. }
    unfold Binary64.mul, Binary64.div.
    set (x := count (S p) / count t).
    assert (Hx1 : x <= 1).
    { apply Qle_shift_div_r; lra. }
    assert (Hx0 : (1 # 4294967296) <= x).
    { apply Qle_shift_div_l; lra. }
    assert (Hsmall : 2 ^ (-1022) <= 1 # 4294967296).
    { apply Qle_bool_iff. vm_compute. reflexivity. }
    pose proof (Binary64Facts.pow2_pos (-1022)) as Hpos.
    remember (2 ^ (-1022)) as tiny.
    assert (Hxn : tiny <= x) by lra.
    assert (Hxp : 0 < x) by lra.
    pose proof (Binary64Facts.round_nonneg x Hxp) as Hq0.
    assert (Hq1 : Binary64.round x <= 1).
    { apply (Binary64Facts.round_le_Z x 1); [exact Hxp|exact Hx1|reflexivity]. }
    assert (Hqe : Qabs (Binary64.round x - x) <= x * (1 # 9007199254740992)).
    { apply Binary64Facts.round_error. now subst tiny. }
    apply Qabs_Qle_condition in Hqe. destruct Hqe as [Hqe1 Hqe2].
    set (q := Binary64.round x) in *.
    set (y := q * 100).
    assert (Hyn : tiny <= y) by (unfold y; lra).
    assert (Hyp : 0 < y) by lra.
    assert (Hy100 : y <= inject_Z 100).
    { change (inject_Z 100) with 100. unfold y. lra. }
    pose proof (Binary64Facts.round_nonneg y Hyp) as Hr0.
    pose proof (Binary64Facts.round_le_Z y 100 Hyp Hy100 eq_refl) as Hr100.
    change (inject_Z 100) with 100 in Hr100.
    assert (Hre : Qabs (Binary64.round y - y) <= y * (1 # 9007199254740992)).
    { apply Binary64Facts.round_error. now subst tiny. }
    apply Qabs_Qle_condition in Hre. destruct Hre as [Hre1 Hre2].
    set (r := Binary64.round y) in *.
    split; [exact Hr0|]. split; [exact Hr100|].
    apply Qabs_Qle_condition. unfold y in *.
    clear - Hqe1 Hqe2 Hre1 Hre2 Hxp. split; lra.
Qed.

Variable P : Platform.
Implicit Types (records : list AttendanceRecord.t).

Lemma percentages64_of_counts records dates :
  (forall d, In d dates -> In d (JsObject.keys (groupByDate P records))) ->
  percentages64 (groupByDate P records) dates =
  Some (map (fun d => percentage64 {| present := presentCount P d records;
                                      total := totalCount P d records |}) dates).
Proof.
  induction dates as [|d ds IH]; intros H; [reflexivity|].
  cbn [percentages64 map]. rewrite IH by (intros; apply H; now right).
  rewrite TrendFacts.groupByDate_get.
  destruct (TrendFacts.groupByDate_key_of_record P records d (H d (or_introl eq_refl)))
    as [Hnz _].
  destruct (Nat.eqb_spec (totalCount P d records) 0); [contradiction|reflexivity].
Qed.

Lemma getTrendData64_closed_form records :
  getTrendData64 P records =
  Some {| labels := sortedDates P (groupByDate P records);
          datasets :=
            [ {| label := "Daily Attendance %";
                 data := map (fun d => percentage64
                                {| present := presentCount P d records;
                                   total := totalCount P d records |})
                             (sortedDates P (groupByDate P records));
                 fill := Some false;
                 backgroundColor := Single "rgba(75, 192, 192, 0.6)";
                 borderColor := Single "rgba(75, 192, 192, 1)";
                 borderWidth := None;
                 tension := Some (1 # 10) |} ] |}.
Proof.
  unfold getTrendData64. rewrite percentages64_of_counts; [reflexivity|].
  intros d Hd. now apply JsArrayFacts.sort_In in Hd.
Qed.

Lemma totalCount_le_length records date :
  (totalCount P date records <= List.length records)%nat.
Proof.
  unfold totalCount. induction records as [|r rs IH]; simpl; [lia|].
  destruct (String.eqb date (dateKey P r)); simpl; lia.
Qed.
End TrendValues.

(** [Binary64] against the hardware: for every total from 1 to 60 and every
    present count from 0 to the total, [percentage64] is the number the
    processor computes for [(present / total) * 100]. *)
Example percentage64_is_hardware :
  forallb (fun total => Dashboard64.agree_below (S total) total) (seq 1 60) = true.
Proof. vm_compute. reflexivity. Qed.

Example percentage64_is_hardware_11_of_20 :
  option_map Qred (Dashboard64.hardware_percentage 11 20)
  = Some (7740561859543041 # 140737488355328)%Q.
Proof. vm_compute. reflexivity. Qed.

(** Eleven present records out of twenty on one day: the value of the series
    is 55.00000000000000710542735760100185871124267578125, not
    100 * 11 / 20. *)
Lemma trend_percentage_is_rounded :
  let pct :=
    Binary64.mul (Binary64.div (Dashboard64.count 11) (Dashboard64.count 20)) 100 in
  Dashboard64.getTrendData64 (browser en_US 0) Sample64.eleven_of_twenty =
    Some {| labels := ["1/1/2024"];
            datasets :=
              [ {| label := "Daily Attendance %";
                   data := [pct];
                   fill := Some false;
                   backgroundColor := Single "rgba(75, 192, 192, 0.6)";
                   borderColor := Single "rgba(75, 192, 192, 1)";
                   borderWidth := None;
                   tension := Some (1 # 10)%Q |} ] |} /\
  presentCount (browser en_US 0) "1/1/2024" Sample64.eleven_of_twenty = 11%nat /\
  totalCount (browser en_US 0) "1/1/2024" Sample64.eleven_of_twenty = 20%nat /\
  (pct == 7740561859543041 # 140737488355328)%Q /\
  ~ (pct == 100 * 11 / 20)%Q.
Proof.
  cbv zeta.
  do 3 (split; [vm_compute; reflexivity|]).
  split; [apply Qeq_bool_iff; vm_compute; reflexivity|].
  intros H. apply Qeq_bool_iff in H. vm_compute in H. discriminate H.
Qed.

(** C2. For every platform and every collection of records (an array: fewer
    than 2^32 of them), the series has, for each of its dates, the value
    [(present_count / total_count) * 100] computed in binary64, where
    [present_count] is the number of records of that date whose status is
    'present' and [total_count] the number of records of that date, which is
    never zero. The value lies between 0 and 100 and is within a relative
    error of 2^-51 of 100 * present_count / total_count. On a bucket whose
    [total] is 0 the expression gives 0. *)
Theorem trend_percentage_in_binary64 (P : Platform)
    (records : list AttendanceRecord.t) :
  (Z.of_nat (List.length records) < 4294967296)%Z ->
  (forall present_count : nat,
     Dashboard64.percentage64 {| present := present_count; total := 0 |} = 0%Q) /\
  exists dates values,
    Dashboard64.getTrendData64 P records =
      Some {| labels := dates;
              datasets :=
                [ {| label := "Daily Attendance %";
                     data := values;
                     fill := Some false;
                     backgroundColor := Single "rgba(75, 192, 192, 0.6)";
                     borderColor := Single "rgba(75, 192, 192, 1)";
                     borderWidth := None;
                     tension := Some (1 # 10)%Q |} ] |} /\
    Forall2
      (fun date pct =>
         let present_count := presentCount P date records in
         let total_count := totalCount P date records in
         let exact :=
           (100 * Dashboard64.count present_count
            / Dashboard64.count total_count)%Q in
         JsObject.get date (groupByDate P records)
           = Some {| present := present_count; total := total_count |} /\
         pct = Binary64.mul
                 (Binary64.div (Dashboard64.count present_count)
                               (Dashboard64.count total_count)) 100 /\
         (0 < total_count)%nat /\
         (present_count <= total_count)%nat /\
         (0 <= pct)%Q /\ (pct <= 100)%Q /\
         (Qabs (pct - exact) <= exact * (1 # 2251799813685248))%Q)
      dates values.
Proof.
  intros Hlen. split; [intros n; reflexivity|].
  eexists. eexists. split; [apply getTrendData64_closed_form|].
  apply Forall2_map_right_in. intros d Hd. cbv zeta.
  apply JsArrayFacts.sort_In in Hd.
  apply TrendFacts.groupByDate_key_of_record in Hd. destruct Hd as [Hnz _].
  pose proof (TrendFacts.presentCount_le_totalCount P d records) as Hle.
  pose proof (totalCount_le_length P records d) as Hall.
  assert (Hpos : (0 < totalCount P d records)%nat) by lia.
  assert (Hbound : (Z.of_nat (totalCount P d records) < 4294967296)%Z) by lia.
  assert (Epct : Dashboard64.percentage64
                   {| present := presentCount P d records;
                      total := totalCount P d records |}
                 = Binary64.mul
                     (Binary64.div (Dashboard64.count (presentCount P d records))
                                   (Dashboard64.count (totalCount P d records)))
                     100).
  { unfold Dashboard64.percentage64. cbn [total present].
    destruct (totalCount P d records); [lia|reflexivity]. }
  rewrite Epct.
  split.
  { rewrite TrendFacts.groupByDate_get.
    destruct (Nat.eqb_spec (totalCount P d records) 0); [contradiction|reflexivity]. }
  split; [reflexivity|].
  split; [exact Hpos|]. split; [exact Hle|].
  apply (percentage64_sound _ _ Hpos Hle Hbound).
Qed.

Lemma trend_percentage_in_binary64_witness :
  (Z.of_nat (List.length Sample64.eleven_of_twenty) < 4294967296)%Z /\
  exists dates values,
    option_map (fun d => (labels d, map data (datasets d)))
      (Dashboard64.getTrendData64 (browser en_US 0) Sample64.eleven_of_twenty)
      = Some (dates, [values]) /\
    Forall (fun pct => (0 <= pct)%Q /\ (pct <= 100)%Q) values.
Proof.
  assert (H : (Z.of_nat (List.length Sample64.eleven_of_twenty) < 4294967296)%Z)
    by (vm_compute; reflexivity).
  split; [exact H|].
  destruct (trend_percentage_in_binary64 (browser en_US 0)
              Sample64.eleven_of_twenty H) as [_ [dates [values [E F]]]].
  exists dates, values. split; [rewrite E; reflexivity|].
  clear E. induction F as [|d v ds vs Hv _ IH]; constructor; [|exact IH].
  cbv zeta in Hv. tauto.
Defined.
